(** * nmap2nb: the host classification engine ([fingerprint_engine.py])

    A shallow embedding of [FingerprintEngine] and the properties of its
    decision procedure: OUI lookup, port-based role lookup, the lazily
    triggered TLS/page refinement and the rule matcher. The code around the
    engine follows: the loader of its tables ([config_loader.py]), the part
    of the scanner that builds the host records ([nmap_scanner.py]), and the
    names that [main] and the NetBox manager compute from them
    ([nmap2nb.py], [netbox_manager.py]). The calls on nmap and on NetBox
    themselves are not part of the development.

    Conventions of the embedding.
    - Python [str] is [string]; the engine only handles MAC addresses, port
      numbers in decimal and evidence text, and the case conversions and the
      whitespace test below are the ASCII part of [str.upper], [str.lower]
      and [str.strip].
    - A Python [dict] with string keys is a [gmap string _]; [d.get(k)] is
      [d !! k], [d.get(k, x)] is [default x (d !! k)], [k in d] is
      [is_Some (d !! k)].
    - A value that is a string or [None] is an [option string]; such a
      value is truthy ([if s:]) when it is a string and not the empty one.
    - The tables have the shape that [ConfigLoader] and the comments of the
      engine give them: [oui_dict] maps prefixes to vendor names,
      [port_roles] maps port numbers in decimal to dicts of strings, and
      [fingerprint_patterns] is a list of dicts of strings. An entry may
      lack any key and may hold the empty string.
    - The two effects of the engine are explicit: the network exchange of
      [_fetch_cert_and_page] is recorded in a log of calls and answered by an
      oracle, and the exception [re.error] that [re.search] can raise is an
      outcome of the computation.
    - Nothing in the code checks the shape of the two tables that come from
      the mappings file. The module [Untyped] models [load_mappings] and the
      engine on whatever [yaml.safe_load] returned, with the [TypeError] and
      the [AttributeError] that a table of another shape leads to, and
      [fingerprint_host_of] shows that on tables of the shape above it is
      the engine of the first part. The statements about what the engine
      does for every rule store are made there. *)

From stdpp Require Import gmap strings list fin_maps pretty.
From Stdlib Require Import ZArith Ascii String.

Local Open Scope Z_scope.
Local Open Scope string_scope.
Local Open Scope list_scope.

(** ** Strings as Python uses them *)

Module PyStr.

(** [c.upper()] on one ASCII character. *)
Definition upper_ascii (c : ascii) : ascii :=
  let n := N_of_ascii c in
  if ((97 <=? n) && (n <=? 122))%N then ascii_of_N (n - 32) else c.

(** [c.lower()] on one ASCII character. *)
Definition lower_ascii (c : ascii) : ascii :=
  let n := N_of_ascii c in
  if ((65 <=? n) && (n <=? 90))%N then ascii_of_N (n + 32) else c.

(** [c.isspace()]: tab, line feed, vertical tab, form feed, carriage
    return, the four separators 0x1c-0x1f and the space. *)
Definition is_space (c : ascii) : bool :=
  let n := N_of_ascii c in
  (((9 <=? n) && (n <=? 13)) || ((28 <=? n) && (n <=? 32)))%N.

Fixpoint map (f : ascii → ascii) (s : string) : string :=
  match s with
  | EmptyString => EmptyString
  | String c s' => String (f c) (map f s')
  end.

Definition upper : string → string := map upper_ascii.
Definition lower : string → string := map lower_ascii.

(** [s[:n]] *)
Definition take (n : nat) (s : string) : string := String.substring 0 n s.

Fixpoint all (p : ascii → bool) (s : string) : bool :=
  match s with
  | EmptyString => true
  | String c s' => p c && all p s'
  end.

(** [not s.strip()]: nothing is left once the whitespace is stripped. *)
Definition blank (s : string) : bool := all is_space s.

(** [bool(s)] for a string. *)
Definition nonempty (s : string) : bool :=
  match s with EmptyString => false | String _ _ => true end.

(** [p] occurs in [s] as a contiguous block. *)
Fixpoint contains (p s : string) : bool :=
  String.prefix p s ||
  match s with
  | EmptyString => false
  | String _ s' => contains p s'
  end.

End PyStr.

(** ** Data *)

(** The dict built by [NmapScanner.scan_subnet] for one host. *)
Record host_data := HostData {
  ip_addr : string;
  mac_addr : option string;
  open_ports : list Z;
  os_guess : option string
}.

(** The dict returned by [fingerprint_host]. *)
Record classification := Classification {
  vendor : string;
  role_slug : string;
  device_type : string
}.

(** The three tables handed to [FingerprintEngine.__init__]. *)
Record FingerprintEngine := Engine {
  oui_dict : gmap string string;
  port_roles : gmap string (gmap string string);
  fingerprint_patterns : list (gmap string string)
}.

Definition DEFAULT_VENDOR : string := "Unknown".
Definition DEFAULT_ROLE_SLUG : string := "unknown".
Definition DEFAULT_DEVICE_TYPE : string := "Unknown".

(** ** Effects *)

(** What [re.search(pat, text)] does: raise [re.error] when [pat] does not
    compile, return [None], or return a match object. *)
Inductive re_result := ReError | ReNoMatch | ReFound.

Inductive exn := re_error (pat : string).

Inductive outcome (A : Type) :=
| Ret (a : A)
| Raise (e : exn).
Arguments Ret {A} a.
Arguments Raise {A} e.

(** One entry per call of [_fetch_cert_and_page], oldest first. *)
Definition fetch_log := list (string * Z).

(** A computation reads the log of the fetches made so far and extends it. *)
Definition M (A : Type) : Type := fetch_log → fetch_log * outcome A.

#[global] Instance M_ret : MRet M := λ A a lg, (lg, Ret a).
#[global] Instance M_bind : MBind M := λ A B f m lg,
  match m lg with
  | (lg', Ret a) => f a lg'
  | (lg', Raise e) => (lg', Raise e)
  end.

(** A pure computation that may raise, run inside [M]. *)
Definition lift {A} (o : outcome A) : M A := λ lg, (lg, o).

(** What the network gave for one fetch: the certificate's common name and
    the page body as received, each [None] when its [try] block failed (or
    the certificate has no common name). *)
Definition raw_evidence : Type := option string * option string.

(** ** The engine *)

Section Engine.

(** [re.search], from Python's standard library. *)
Variable re_search : string → string → re_result.

(** The network: the answer to a fetch of [(ip, port)] may depend on
    everything fetched before. *)
Variable net : fetch_log → string → Z → raw_evidence.

(** One part of the evidence: the empty string unless its [try] block got a
    text, which is kept lower-cased. *)
Definition lowered (received : option string) : string :=
  match received with Some s => PyStr.lower s | None => "" end.

(** [_fetch_cert_and_page(ip, port)]: one call on the network, two
    independent [try] blocks, and no exception leaves the function. *)
Definition _fetch_cert_and_page (ip : string) (port : Z) : M (string * string) :=
  λ lg,
    let '(cn, page) := net lg ip port in
    let cert_cn := lowered cn in
    let page_text := lowered page in
    (lg ++ [(ip, port)], Ret (cert_cn, page_text)).

(** The loop of [_regex_fingerprint] over [self.fingerprint_patterns]. *)
Fixpoint search_patterns (patterns : list (gmap string string)) (combined : string)
  : outcome (option string * option string) :=
  match patterns with
  | [] => Ret (None, None)
  | entry :: rest =>
      let pat := entry !! "regex" in
      let vend := entry !! "vendor" in
      let dt := entry !! "device_type" in
      match pat, vend, dt with
      | Some p, Some v, Some d =>
          if PyStr.nonempty p && PyStr.nonempty v && PyStr.nonempty d then
            match re_search p combined with
            | ReError => Raise (re_error p)
            | ReFound => Ret (Some v, Some d)
            | ReNoMatch => search_patterns rest combined
            end
          else search_patterns rest combined
      | _, _, _ => search_patterns rest combined
      end
  end.

(** [_regex_fingerprint(cert_cn, page_text)]; both arguments are strings
    here, so [cert_cn or ""] is [cert_cn]. *)
Definition _regex_fingerprint (self : FingerprintEngine) (cert_cn page_text : string)
  : outcome (option string * option string) :=
  let combined := cert_cn +:+ " " +:+ page_text in
  if PyStr.blank combined then Ret (None, None)
  else search_patterns (fingerprint_patterns self) combined.

(** Step 1 of [fingerprint_host]: the OUI lookup. *)
Definition oui_lookup (self : FingerprintEngine) (mac : option string) (vendor : string) : string :=
  match mac with
  | Some m =>
      if PyStr.nonempty m then
        let prefix := PyStr.upper (PyStr.take 8 m) in
        match oui_dict self !! prefix with
        | Some maybe_vendor => if PyStr.nonempty maybe_vendor then maybe_vendor else vendor
        | None => vendor
        end
      else vendor
  | None => vendor
  end.

(** Step 2: the loop over [open_ports], left at the first port that is a key
    of [port_roles]. *)
Fixpoint port_lookup (roles : gmap string (gmap string string)) (ports : list Z)
  (role_slug device_type : string) : string * string :=
  match ports with
  | [] => (role_slug, device_type)
  | p :: rest =>
      let p_str := pretty p in
      match roles !! p_str with
      | Some entry =>
          (default role_slug (entry !! "role"),
           default device_type (entry !! "device_type"))
      | None => port_lookup roles rest role_slug device_type
      end
  end.

(** The guard of step 3. *)
Definition tls_wanted (ports : list Z) (vendor device_type : string) : bool :=
  bool_decide (443 ∈ ports) &&
  ((vendor =? DEFAULT_VENDOR) || (device_type =? DEFAULT_DEVICE_TYPE)).

(** [if found and current == default: current = found], for the vendor and
    for the device type of step 3. *)
Definition fill_default (found : option string) (current default_value : string) : string :=
  match found with
  | Some x => if PyStr.nonempty x && (current =? default_value) then x else current
  | None => current
  end.

(** Step 3: certificate and page inspection. *)
Definition tls_refine (self : FingerprintEngine) (ip : string) (ports : list Z)
  (vendor device_type : string) : M (string * string) :=
  if tls_wanted ports vendor device_type then
    '(cn, page_txt) ← _fetch_cert_and_page ip 443;
    '(v2, dt2) ← lift (_regex_fingerprint self cn page_txt);
    let vendor := fill_default v2 vendor DEFAULT_VENDOR in
    let device_type := fill_default dt2 device_type DEFAULT_DEVICE_TYPE in
    mret (vendor, device_type)
  else mret (vendor, device_type).

(** Step 4: the OS guess is lower-cased and then not used. *)
Definition os_refine (vendor : string) (os : option string) : string :=
  match os with
  | Some guess =>
      if (vendor =? DEFAULT_VENDOR) && PyStr.nonempty guess then
        let lower_os := PyStr.lower guess in
        vendor
      else vendor
  | None => vendor
  end.

Definition fingerprint_host (self : FingerprintEngine) (host : host_data) : M classification :=
  let ip_addr := ip_addr host in
  let mac := mac_addr host in
  let open_ports := open_ports host in
  let os_guess := os_guess host in
  let vendor := DEFAULT_VENDOR in
  let role_slug := DEFAULT_ROLE_SLUG in
  let device_type := DEFAULT_DEVICE_TYPE in
  let vendor := oui_lookup self mac vendor in
  let '(role_slug, device_type) :=
    port_lookup (port_roles self) open_ports role_slug device_type in
  '(vendor, device_type) ← tls_refine self ip_addr open_ports vendor device_type;
  let vendor := os_refine vendor os_guess in
  mret (Classification vendor role_slug device_type).

End Engine.

(** ** A runnable instance of the environment *)

Module Plain.

(** The characters with a meaning of their own in a pattern. *)
Definition re_special (c : ascii) : bool :=
  bool_decide (c ∈ list_ascii_of_string ".^$*+?{}[]\|()").

(** [re.search] on the patterns used in the examples of this file. A
    pattern without special characters is looked for as it is written, as a
    contiguous block of the text ([contains_block] below); no flag is passed
    by the engine, so letters are compared exactly. Of the patterns with
    special characters only ["("] is used: [re] rejects it ("missing ),
    unterminated subpattern"). The other patterns with special characters
    are outside this instance, which answers [ReError] for them too; no
    example depends on that answer. *)
Definition re_search (pat text : string) : re_result :=
  if PyStr.all (λ c, negb (re_special c)) pat then
    if PyStr.contains pat text then ReFound else ReNoMatch
  else ReError.

(** A network that gives the same evidence at every fetch. *)
Definition const_net (ev : raw_evidence) : fetch_log → string → Z → raw_evidence :=
  λ _ _ _, ev.

(** A host that answers nothing on port 443. *)
Definition silent : fetch_log → string → Z → raw_evidence := const_net (None, None).

Definition run (net : fetch_log → string → Z → raw_evidence)
  (self : FingerprintEngine) (host : host_data) : fetch_log * outcome classification :=
  fingerprint_host re_search net self host [].

End Plain.

(** ** Vocabulary of the statements *)

(** [entry] passes the test [if pat and vend and dt] of [_regex_fingerprint]
    with the pattern [p], the vendor [v] and the device type [d]. *)
Definition complete_rule (entry : gmap string string) (p v d : string) : Prop :=
  entry !! "regex" = Some p ∧ entry !! "vendor" = Some v ∧
  entry !! "device_type" = Some d ∧ p ≠ "" ∧ v ≠ "" ∧ d ≠ "".

(** No rule that passes the test has a pattern that [re] rejects. *)
Definition patterns_compile (re_search : string → string → re_result)
  (self : FingerprintEngine) : Prop :=
  ∀ entry p v d text,
    entry ∈ fingerprint_patterns self → complete_rule entry p v d →
    re_search p text ≠ ReError.

(** How a run of [fingerprint_host] ended: with a classification, which
    satisfies [P]; or with an exception, which takes a rule whose pattern
    [re] rejects. *)
Definition returns_with (re_search : string → string → re_result)
  (self : FingerprintEngine) (r : fetch_log * outcome classification)
  (P : classification → Prop) : Prop :=
  match r.2 with
  | Ret c => P c
  | Raise _ => ¬ patterns_compile re_search self
  end.

(** None of the rules in [rules] that pass the test matches [text]. *)
Definition none_matches (re_search : string → string → re_result)
  (rules : list (gmap string string)) (text : string) : Prop :=
  Forall (λ entry, ∀ p v d, complete_rule entry p v d → re_search p text = ReNoMatch) rules.

(** None of the ports in [ports] is a key of [roles]. *)
Definition no_port_rule (roles : gmap string (gmap string string)) (ports : list Z) : Prop :=
  Forall (λ q, roles !! pretty q = None) ports.

(** No entry of [port_roles] maps ["role"] or ["device_type"] to the empty
    string. *)
Definition port_values_nonempty (self : FingerprintEngine) : Prop :=
  ∀ key entry, port_roles self !! key = Some entry →
    entry !! "role" ≠ Some "" ∧ entry !! "device_type" ≠ Some "".

(** The network gives the evidence [ev] for [ip] whatever was fetched before. *)
Definition fixed_evidence (net : fetch_log → string → Z → raw_evidence)
  (ip : string) (ev : raw_evidence) : Prop :=
  ∀ lg, net lg ip 443 = ev.

(** ** Concrete rule stores and hosts *)

Module Scenarios.

Definition linux_entry : gmap string string :=
  {[ "role" := "server"; "device_type" := "Linux Host" ]}.

Definition acme_engine : FingerprintEngine :=
  Engine {[ "AC:DE:48" := "Acme" ]} {[ "22" := linux_entry ]} [].

Definition acme_host : host_data :=
  HostData "10.0.0.7" (Some "ac:de:48:00:11:22") [22] None.

Definition mikrotik_rule : gmap string string :=
  {[ "regex" := "mikrotik"; "vendor" := "MikroTik"; "device_type" := "RouterOS" ]}.

Definition other_rule : gmap string string :=
  {[ "regex" := "local"; "vendor" := "Other"; "device_type" := "Thing" ]}.

Definition mikrotik_engine : FingerprintEngine := Engine ∅ ∅ [mikrotik_rule].

Definition two_rules_engine : FingerprintEngine := Engine ∅ ∅ [mikrotik_rule; other_rule].

Definition https_host : host_data := HostData "10.0.0.8" None [443] None.

Definition mikrotik_net : fetch_log → string → Z → raw_evidence :=
  Plain.const_net (Some "MikroTik.local", None).

(** The same host seen with the letters of its evidence in two cases. *)
Definition mixed_case_net : fetch_log → string → Z → raw_evidence :=
  Plain.const_net (Some "MikroTik.local", Some "<HTML>Login</HTML>").

Definition upper_case_net : fetch_log → string → Z → raw_evidence :=
  Plain.const_net (Some "MIKROTIK.LOCAL", Some "<html>LOGIN</html>").

Definition switch_net : fetch_log → string → Z → raw_evidence :=
  Plain.const_net (Some "switch.local", None).

(** An OUI table that names a vendor "Unknown". *)
Definition unknown_vendor_engine : FingerprintEngine :=
  Engine {[ "AC:DE:48" := "Unknown" ]} ∅ [mikrotik_rule].

Definition unknown_vendor_host : host_data :=
  HostData "10.0.0.10" (Some "ac:de:48:00:11:22") [443] None.

(** A port entry whose device type is the text "Unknown". *)
Definition unknown_type_entry : gmap string string :=
  {[ "role" := "web"; "device_type" := "Unknown" ]}.

Definition unknown_type_engine : FingerprintEngine :=
  Engine ∅ {[ "443" := unknown_type_entry ]} [mikrotik_rule].

(** Two ports with a rule; 80 has none. *)
Definition several_ports_engine : FingerprintEngine :=
  Engine ∅
    {[ "22" := linux_entry;
       "8080" := {[ "role" := "proxy"; "device_type" := "Web Proxy" ]} ]}
    [].

Definition several_ports_host : host_data :=
  HostData "10.0.0.11" None [80; 22; 8080] None.

(** A rule whose pattern [re] rejects. *)
Definition broken_rule : gmap string string :=
  {[ "regex" := "("; "vendor" := "Acme"; "device_type" := "Switch" ]}.

Definition broken_first_engine : FingerprintEngine := Engine ∅ ∅ [broken_rule; mikrotik_rule].

Definition broken_engine : FingerprintEngine := Engine ∅ ∅ [broken_rule].

(** A rule without a device type, before a rule with all three fields. *)
Definition typeless_rule : gmap string string :=
  {[ "regex" := "mikrotik"; "vendor" := "MikroTik" ]}.

Definition typeless_first_engine : FingerprintEngine := Engine ∅ ∅ [typeless_rule; other_rule].

(** The rule of [mikrotik_engine] with the vendor's spelling as its pattern. *)
Definition capital_rule : gmap string string :=
  {[ "regex" := "MikroTik"; "vendor" := "MikroTik"; "device_type" := "RouterOS" ]}.

Definition capital_engine : FingerprintEngine := Engine ∅ ∅ [capital_rule].

(** A port entry with an empty role. *)
Definition empty_role_engine : FingerprintEngine :=
  Engine ∅ {[ "22" := {[ "role" := ""; "device_type" := "Linux Host" ]} ]} [].

Definition ssh_host : host_data := HostData "10.0.0.13" None [22] None.

(** An OUI table with an empty vendor name. *)
Definition empty_vendor_engine : FingerprintEngine :=
  Engine {[ "AC:DE:48" := "" ]} ∅ [].

(** A port entry without a role, before a port with a full entry. *)
Definition partial_entry : gmap string string := {[ "device_type" := "Linux Host" ]}.

Definition partial_engine : FingerprintEngine :=
  Engine ∅
    {[ "22" := partial_entry;
       "80" := {[ "role" := "web"; "device_type" := "Web Server" ]} ]}
    [].

Definition partial_host : host_data := HostData "10.0.0.12" None [22; 80] None.

End Scenarios.

(** * The code around the engine *)

(** ** More of Python's strings *)

Module PyText.

Definition tab : ascii := ascii_of_N 9.

(** [s.lstrip()] *)
Fixpoint lstrip (s : string) : string :=
  match s with
  | EmptyString => EmptyString
  | String c s' => if PyStr.is_space c then lstrip s' else s
  end.

(** [s.rstrip()] *)
Fixpoint rstrip (s : string) : string :=
  match s with
  | EmptyString => EmptyString
  | String c s' =>
      let r := rstrip s' in
      if PyStr.is_space c && negb (PyStr.nonempty r) then EmptyString else String c r
  end.

(** [s.strip()] *)
Definition strip (s : string) : string := rstrip (lstrip s).

(** [s.startswith(p)] *)
Definition startswith (p s : string) : bool := String.prefix p s.

(** [s.split(sep)] for a separator of one character: never an empty list. *)
Fixpoint split_on (sep : ascii) (s : string) : list string :=
  match s with
  | EmptyString => [EmptyString]
  | String c s' =>
      if bool_decide (c = sep) then EmptyString :: split_on sep s'
      else
        match split_on sep s' with
        | part :: parts => String c part :: parts
        | [] => [String c EmptyString]
        end
  end.

(** [sep.join(parts)] *)
Fixpoint join (sep : ascii) (parts : list string) : string :=
  match parts with
  | [] => EmptyString
  | [part] => part
  | part :: rest => part +:+ String sep (join sep rest)
  end.

(** [s.replace(old, new)] for an [old] of one character. *)
Fixpoint replace_char (old : ascii) (new : string) (s : string) : string :=
  match s with
  | EmptyString => EmptyString
  | String c s' =>
      if bool_decide (c = old) then new +:+ replace_char old new s'
      else String c (replace_char old new s')
  end.

(** [x or y] for a value [x] that is a string or [None]. *)
Definition or_else (x : option string) (y : string) : string :=
  match x with
  | Some s => if PyStr.nonempty s then s else y
  | None => y
  end.

(** The character [c] occurs in [s]. *)
Definition has_char (c : ascii) (s : string) : Prop := c ∈ list_ascii_of_string s.

Definition is_upper (c : ascii) : bool :=
  let n := N_of_ascii c in ((65 <=? n) && (n <=? 90))%N.

Definition is_lower (c : ascii) : bool :=
  let n := N_of_ascii c in ((97 <=? n) && (n <=? 122))%N.

Definition is_digit (c : ascii) : bool :=
  let n := N_of_ascii c in ((48 <=? n) && (n <=? 57))%N.

(** [int(s)] on short ASCII texts: surrounding whitespace, a sign, and
    decimal digits with single underscores between them; [None] is
    [ValueError]. *)
Fixpoint digits_value (s : string) (acc : Z) (after_digit : bool) : option Z :=
  match s with
  | EmptyString => if after_digit then Some acc else None
  | String c s' =>
      if is_digit c then digits_value s' (10 * acc + (Z.of_N (N_of_ascii c) - 48)) true
      else if bool_decide (c = "_"%char) && after_digit then digits_value s' acc false
      else None
  end.

Definition int_ascii (s : string) : option Z :=
  match strip s with
  | String "+" r => digits_value r 0 false
  | String "-" r => Z.opp <$> digits_value r 0 false
  | r => digits_value r 0 false
  end.

End PyText.

(** ** [ConfigLoader] *)

(** One turn of the loop of [load_oui]. *)
Definition oui_line (oui_dict : gmap string string) (line : string) : gmap string string :=
  let line := PyText.strip line in
  if negb (PyStr.nonempty line) || PyText.startswith "#" line then oui_dict
  else
    let parts := PyText.split_on PyText.tab line in
    match parts with
    | [mac_prefix; vendor] => <[mac_prefix := PyText.strip vendor]> oui_dict
    | mac_prefix :: _ :: vendor :: _ => <[mac_prefix := PyText.strip vendor]> oui_dict
    | _ => oui_dict
    end.

(** [load_oui]: [file] is [None] when [oui_file] is not a file, and the lines
    of the file otherwise; the dict of the loader is extended in place. *)
Definition load_oui (file : option (list string)) (oui_dict : gmap string string)
  : gmap string string :=
  match file with
  | None => oui_dict
  | Some lines => foldl oui_line oui_dict lines
  end.

(** What [yaml.safe_load] made of the mappings file: each of the two keys is
    there or not. An empty document loads as [None]. *)
Record mappings := Mappings {
  yaml_port_roles : option (gmap string (gmap string string));
  yaml_fingerprint_patterns : option (list (gmap string string))
}.

(** [load_mappings] on the tables of the loader: [file] is [None] when
    [mappings_file] is not a file, and the loaded document otherwise. *)
Definition load_mappings (file : option (option mappings)) (self : FingerprintEngine)
  : FingerprintEngine :=
  match file with
  | None => self
  | Some loaded =>
      let data := default (Mappings None None) loaded in
      Engine (oui_dict self)
             (default ∅ (yaml_port_roles data))
             (default [] (yaml_fingerprint_patterns data))
  end.

(** [ConfigLoader(...)], [load_all()] and the engine that [main] builds from
    the three tables. *)
Definition load_all (oui_file : option (list string)) (mappings_file : option (option mappings))
  : FingerprintEngine :=
  let self := Engine ∅ ∅ [] in
  let self := Engine (load_oui oui_file (oui_dict self))
                     (port_roles self) (fingerprint_patterns self) in
  load_mappings mappings_file self.

(** ** [NmapScanner] *)

(** One element of [nm[host]['osmatch']]; each key is there or not. *)
Record osmatch_entry := OsMatch {
  om_accuracy : option string;
  om_name : option string
}.

(** What [self.nm[host]] holds for one host: its state, its addresses, the
    items of its ["tcp"] dict (port and state of the port, in the order of
    the dict) when it has one, and its ["osmatch"] list when it has one. *)
Record nmap_host := NmapHost {
  nh_state : string;
  nh_addresses : gmap string string;
  nh_tcp : option (list (Z * string));
  nh_osmatch : option (list osmatch_entry)
}.

(** [scan_subnet] ends with a value or with the [TypeError] of [None[:25]]. *)
Inductive scanned (A : Type) :=
| Scanned (a : A)
| ScanTypeError.
Arguments Scanned {A} a.
Arguments ScanTypeError {A}.

Section Scanner.

(** [int], from Python's built-ins; [None] is [ValueError]. *)
Variable py_int : string → option Z.

(** The ports gathered from the ["tcp"] dict. *)
Definition gather_open_ports (tcp : option (list (Z * string))) : list Z :=
  match tcp with
  | None => []
  | Some items => (filter (λ item, item.2 = "open") items).*1
  end.

(** [accuracy_val] of one entry. *)
Definition accuracy_val (entry : osmatch_entry) : Z :=
  let accuracy_str := default "0" (om_accuracy entry) in
  match py_int accuracy_str with
  | Some n => n
  | None => 0
  end.

(** The loop over [osmatch_list]. *)
Fixpoint best_osmatch (osmatch_list : list osmatch_entry)
  (best_accuracy : Z) (best_name : option string) : scanned (Z * option string) :=
  match osmatch_list with
  | [] => Scanned (best_accuracy, best_name)
  | entry :: rest =>
      if accuracy_val entry >? best_accuracy then
        match om_name entry with
        | Some name => best_osmatch rest (accuracy_val entry) (Some (PyStr.take 25 name))
        | None => ScanTypeError
        end
      else best_osmatch rest best_accuracy best_name
  end.

(** The OS guess of one host. *)
Definition guess_os (enable_os_detection : bool) (osmatch : option (list osmatch_entry))
  : scanned (option string) :=
  match osmatch with
  | Some osmatch_list =>
      if enable_os_detection then
        match best_osmatch osmatch_list 0 None with
        | Scanned (best_accuracy, best_name) =>
            match best_name with
            | Some name =>
                if (best_accuracy >=? 85) && PyStr.nonempty name
                then Scanned (Some name) else Scanned None
            | None => Scanned None
            end
        | ScanTypeError => ScanTypeError
        end
      else Scanned None
  | None => Scanned None
  end.

(** The dict appended to [results] for one host that is up. *)
Definition scan_host (enable_os_detection : bool) (host : string) (found : nmap_host)
  : scanned host_data :=
  let ip_addr := default host (nh_addresses found !! "ipv4") in
  let mac_addr := nh_addresses found !! "mac" in
  let open_ports := gather_open_ports (nh_tcp found) in
  match guess_os enable_os_detection (nh_osmatch found) with
  | Scanned os_guess => Scanned (HostData ip_addr mac_addr open_ports os_guess)
  | ScanTypeError => ScanTypeError
  end.

(** [scan_subnet] once nmap has run: the loop over [all_hosts()]. *)
Fixpoint scan_subnet (enable_os_detection : bool) (hosts : list (string * nmap_host))
  : scanned (list host_data) :=
  match hosts with
  | [] => Scanned []
  | (host, found) :: rest =>
      if nh_state found =? "up" then
        match scan_host enable_os_detection host found with
        | Scanned result =>
            match scan_subnet enable_os_detection rest with
            | Scanned results => Scanned (result :: results)
            | ScanTypeError => ScanTypeError
            end
        | ScanTypeError => ScanTypeError
        end
      else scan_subnet enable_os_detection rest
  end.

End Scanner.

(** ** [main] *)

(** The list of subnets made of [SUBNETS]. *)
Definition cidr_list (subnets : string) : list string :=
  PyText.strip <$> filter (λ x, PyStr.nonempty (PyText.strip x) = true)
                     (PyText.split_on ","%char subnets).

(** The platform name that [main] hands to the NetBox manager for one host. *)
Definition platform_name (host_info : host_data) : string :=
  PyText.or_else (os_guess host_info) "Unknown".

(** ** [NetBoxManager]: the names and slugs it computes *)

(** The slug of a platform, in [ensure_platform]. *)
Definition platform_slug (platform_name : string) : string :=
  PyText.replace_char "("%char ""
    (PyText.replace_char "."%char ""
       (PyText.replace_char " "%char "-" (PyStr.lower platform_name))).

(** The slug of a tenant, a manufacturer or a device type. *)
Definition name_slug (name : string) : string :=
  PyText.replace_char " "%char "-" (PyStr.lower name).

(** The name of a service, in [ensure_service]. *)
Definition svc_name (protocol : string) (port : Z) : string :=
  PyStr.upper protocol +:+ "/" +:+ pretty port.

(** ** Vocabulary of the further statements *)

(** [k] starts with a character that is neither whitespace nor the comment
    sign. *)
Definition starts_clean (k : string) : Prop :=
  ∃ c r, k = String c r ∧ PyStr.is_space c = false ∧ c ≠ "#"%char.

(** What [load_oui] can store: a key that starts clean and a stripped
    vendor, both without a tab. *)
Definition oui_entry_ok (k v : string) : Prop :=
  starts_clean k ∧ ¬ PyText.has_char PyText.tab k ∧
  ¬ PyText.has_char PyText.tab v ∧ PyText.strip v = v.

(** The characters of a slug: lower-case letters, digits, the hyphen and the
    underscore. *)
Definition slug_char (c : ascii) : bool :=
  PyText.is_lower c || PyText.is_digit c ||
  bool_decide (c = "-"%char) || bool_decide (c = "_"%char).

(** The characters of a plain name: letters, digits, the hyphen and the
    underscore, and also the space, the dot and the opening bracket. *)
Definition plain_name_char (c : ascii) : bool :=
  PyText.is_upper c || slug_char c ||
  bool_decide (c = " "%char) || bool_decide (c = "."%char) || bool_decide (c = "("%char).

(** ** Concrete files, scans and names *)

Module Samples.

Definition newline : string := String (ascii_of_N 10) "".

(** Three lines of an OUI file: a comment, a line with two fields and a line
    with three. *)
Definition comment_line : string := "# vendor prefixes" +:+ newline.

Definition old_line : string := "AC:DE:48" +:+ String PyText.tab "Old name" +:+ newline.

Definition acme_vendor_field : string := " Acme Corp" +:+ newline.

Definition acme_line : string := "AC:DE:48" +:+ String PyText.tab acme_vendor_field.

Definition cisco_line : string :=
  "00:00:0C" +:+ String PyText.tab ("Cisco" +:+ String PyText.tab "Cisco Systems, Inc").

(** A table whose only key is written in lower case. *)
Definition lower_key_engine : FingerprintEngine :=
  Engine {[ "ac:de:48" := "Acme" ]} ∅ [].

Definition plain_host : host_data :=
  HostData "10.0.0.9" (Some "00:11:22:33:44:55") [22; 80] None.

(** OS matches as nmap reports them. *)
Definition linux_match : osmatch_entry := OsMatch (Some "90") (Some "Linux 5.4").

Definition freebsd_match : osmatch_entry := OsMatch (Some "95") (Some "FreeBSD 13.0-RELEASE").

Definition openbsd_match : osmatch_entry := OsMatch (Some "95") (Some "OpenBSD 7").

Definition long_match : osmatch_entry :=
  OsMatch (Some "96") (Some "Linux 4.15 - 5.8 (embedded build)").

Definition weak_match : osmatch_entry := OsMatch (Some "70") (Some "Linux 2.6.32").

Definition nameless_match : osmatch_entry := OsMatch (Some "40") None.

(** A host that is up, with ports 22 and 443 open and port 80 closed. *)
Definition web_host : nmap_host :=
  NmapHost "up" {[ "ipv4" := "10.0.0.8" ]}
    (Some [(22, "open"); (80, "closed"); (443, "open")])
    (Some [linux_match; long_match]).

(** A host that is up, with an OS match that has no name. *)
Definition nameless_host : nmap_host :=
  NmapHost "up" {[ "ipv4" := "10.0.0.9" ]} None (Some [nameless_match]).

Definition web_host_data : host_data :=
  HostData "10.0.0.8" None [22; 443] (Some "Linux 4.15 - 5.8 (embedde").

End Samples.

(** * The engine on tables of any shape *)

(** The engine takes its tables from the loader as they are: [oui_dict] is
    always the dict of strings that [load_oui] builds, but [port_roles] and
    [fingerprint_patterns] are whatever [yaml.safe_load] made of the mappings
    file. This part models the loader and the engine on such values, with
    the exceptions that a table of another shape leads to. *)

(** A value loaded from YAML: null, a boolean, an integer, a string, a
    sequence or a mapping (the items of the dict in order, no two with the
    same key). [YOther] is a scalar of another kind (a float, a date): the
    engine can only test its truth. *)
#[warnings="-register-all"]
Inductive yaml :=
| YNull
| YBool (b : bool)
| YInt (n : Z)
| YStr (s : string)
| YSeq (items : list yaml)
| YMap (pairs : list (yaml * yaml))
| YOther (truth : bool).

Module Untyped.

(** The exceptions that leave [load_mappings] or [fingerprint_host];
    [ReRaised] is what [re.search] raised on a pattern. *)
Inductive error :=
| TypeError
| AttributeError
| KeyError
| ReRaised (pat : string).

Inductive result (A : Type) :=
| Returned (a : A)
| Raised (e : error).
Arguments Returned {A} a.
Arguments Raised {A} e.

(** The tables of the engine. *)
Record tables := Tables {
  t_oui_dict : gmap string string;
  t_port_roles : yaml;
  t_fingerprint_patterns : yaml
}.

(** The dict that [fingerprint_host] returns; a field holds whatever the
    tables gave. *)
Record classified := Classified {
  c_vendor : yaml;
  c_role_slug : yaml;
  c_device_type : yaml
}.

(** [bool(v)] *)
Definition truthy (v : yaml) : bool :=
  match v with
  | YNull => false
  | YBool b => b
  | YInt n => negb (n =? 0)%Z
  | YStr s => PyStr.nonempty s
  | YSeq items => match items with [] => false | _ :: _ => true end
  | YMap pairs => match pairs with [] => false | _ :: _ => true end
  | YOther truth => truth
  end.

(** [v == s] for a string [s]: only a string equals a string. *)
Definition is_text (v : yaml) (s : string) : bool :=
  match v with
  | YStr x => (x =? s)%string
  | _ => false
  end.

(** The value under the string key [key] among the items of a dict. *)
Fixpoint lookup_key (pairs : list (yaml * yaml)) (key : string) : option yaml :=
  match pairs with
  | [] => None
  | (k, x) :: rest => if is_text k key then Some x else lookup_key rest key
  end.

(** [v.get(key, default)]: only a dict has [get]. *)
Definition get (v : yaml) (key : string) (default_value : yaml) : result yaml :=
  match v with
  | YMap pairs => Returned (default default_value (lookup_key pairs key))
  | _ => Raised AttributeError
  end.

(** [key in v] for a string [key]: a key of a dict, an item of a list, a
    part of a string; the other values are not containers. *)
Definition has_key (v : yaml) (key : string) : result bool :=
  match v with
  | YMap pairs =>
      Returned (match lookup_key pairs key with Some _ => true | None => false end)
  | YSeq items => Returned (existsb (λ x, is_text x key) items)
  | YStr s => Returned (PyStr.contains key s)
  | _ => Raised TypeError
  end.

(** [v[key]] for a string [key]: only a dict is indexed by a string. *)
Definition item (v : yaml) (key : string) : result yaml :=
  match v with
  | YMap pairs =>
      match lookup_key pairs key with
      | Some x => Returned x
      | None => Raised KeyError
      end
  | _ => Raised TypeError
  end.

(** What [for entry in v] goes through: the items of a list, the keys of a
    dict, the characters of a string; the other values are not iterable. *)
Definition iterate (v : yaml) : result (list yaml) :=
  match v with
  | YSeq items => Returned items
  | YMap pairs => Returned (pairs.*1)
  | YStr s => Returned ((λ c, YStr (String c EmptyString)) <$> list_ascii_of_string s)
  | _ => Raised TypeError
  end.

(** [load_mappings]: [file] is [None] when [mappings_file] is not a file,
    and what [yaml.safe_load] returned otherwise. *)
Definition load_mappings (file : option yaml) (self : tables) : result tables :=
  match file with
  | None => Returned self
  | Some loaded =>
      let data := if truthy loaded then loaded else YMap [] in
      match get data "port_roles" (YMap []) with
      | Raised e => Raised e
      | Returned port_roles =>
          match get data "fingerprint_patterns" (YSeq []) with
          | Raised e => Raised e
          | Returned fingerprint_patterns =>
              Returned (Tables (t_oui_dict self) port_roles fingerprint_patterns)
          end
      end
  end.

(** [ConfigLoader(...)], [load_all()] and the tables that [main] hands to the
    engine. *)
Definition load_all (oui_file : option (list string)) (mappings_file : option yaml)
  : result tables :=
  let self := Tables ∅ (YMap []) (YSeq []) in
  let self := Tables (load_oui oui_file (t_oui_dict self))
                     (t_port_roles self) (t_fingerprint_patterns self) in
  load_mappings mappings_file self.

Section Engine.

Variable re_search : string → string → re_result.
Variable net : fetch_log → string → Z → raw_evidence.

(** The loop of [_regex_fingerprint]; a pattern that is not a string is
    refused by [re.search] with a [TypeError]. *)
Fixpoint search_patterns (entries : list yaml) (combined : string)
  : result (yaml * yaml) :=
  match entries with
  | [] => Returned (YNull, YNull)
  | entry :: rest =>
      match get entry "regex" YNull with
      | Raised e => Raised e
      | Returned pat =>
      match get entry "vendor" YNull with
      | Raised e => Raised e
      | Returned vend =>
      match get entry "device_type" YNull with
      | Raised e => Raised e
      | Returned dt =>
          if truthy pat && truthy vend && truthy dt then
            match pat with
            | YStr p =>
                match re_search p combined with
                | ReError => Raised (ReRaised p)
                | ReFound => Returned (vend, dt)
                | ReNoMatch => search_patterns rest combined
                end
            | _ => Raised TypeError
            end
          else search_patterns rest combined
      end end end
  end.

Definition _regex_fingerprint (self : tables) (cert_cn page_text : string)
  : result (yaml * yaml) :=
  let combined := cert_cn +:+ " " +:+ page_text in
  if PyStr.blank combined then Returned (YNull, YNull)
  else
    match iterate (t_fingerprint_patterns self) with
    | Raised e => Raised e
    | Returned entries => search_patterns entries combined
    end.

(** Step 1, on the dict of strings that the loader built. *)
Definition oui_lookup (self : tables) (mac : option string) (vendor : yaml) : yaml :=
  match mac with
  | Some m =>
      if PyStr.nonempty m then
        let prefix := PyStr.upper (PyStr.take 8 m) in
        match t_oui_dict self !! prefix with
        | Some maybe_vendor =>
            if PyStr.nonempty maybe_vendor then YStr maybe_vendor else vendor
        | None => vendor
        end
      else vendor
  | None => vendor
  end.

(** Step 2: the loop over [open_ports]. *)
Fixpoint port_lookup (roles : yaml) (ports : list Z) (role_slug device_type : yaml)
  : result (yaml * yaml) :=
  match ports with
  | [] => Returned (role_slug, device_type)
  | p :: rest =>
      let p_str := pretty p in
      match has_key roles p_str with
      | Raised e => Raised e
      | Returned false => port_lookup roles rest role_slug device_type
      | Returned true =>
          match item roles p_str with
          | Raised e => Raised e
          | Returned entry =>
          match get entry "role" role_slug with
          | Raised e => Raised e
          | Returned role_slug =>
          match get entry "device_type" device_type with
          | Raised e => Raised e
          | Returned device_type => Returned (role_slug, device_type)
          end end end
      end
  end.

(** [if found and current == default: current = found] *)
Definition fill_default (found current : yaml) (default_value : string) : yaml :=
  if truthy found && is_text current default_value then found else current.

(** Step 4: the OS guess is lower-cased and then not used. *)
Definition os_refine (vendor : yaml) (os : option string) : yaml :=
  match os with
  | Some guess =>
      if is_text vendor DEFAULT_VENDOR && PyStr.nonempty guess then
        let lower_os := PyStr.lower guess in
        vendor
      else vendor
  | None => vendor
  end.

Definition fingerprint_host (self : tables) (host : host_data) (lg : fetch_log)
  : fetch_log * result classified :=
  let ip_addr := ip_addr host in
  let mac := mac_addr host in
  let open_ports := open_ports host in
  let os_guess := os_guess host in
  let vendor := oui_lookup self mac (YStr DEFAULT_VENDOR) in
  match port_lookup (t_port_roles self) open_ports
          (YStr DEFAULT_ROLE_SLUG) (YStr DEFAULT_DEVICE_TYPE) with
  | Raised e => (lg, Raised e)
  | Returned (role_slug, device_type) =>
      if bool_decide (443 ∈ open_ports) &&
         (is_text vendor DEFAULT_VENDOR || is_text device_type DEFAULT_DEVICE_TYPE)
      then
        let '(cn, page) := net lg ip_addr 443 in
        let lg' := lg ++ [(ip_addr, 443)] in
        match _regex_fingerprint self (lowered cn) (lowered page) with
        | Raised e => (lg', Raised e)
        | Returned (v2, dt2) =>
            let vendor := fill_default v2 vendor DEFAULT_VENDOR in
            let device_type := fill_default dt2 device_type DEFAULT_DEVICE_TYPE in
            let vendor := os_refine vendor os_guess in
            (lg', Returned (Classified vendor role_slug device_type))
        end
      else
        let vendor := os_refine vendor os_guess in
        (lg, Returned (Classified vendor role_slug device_type))
  end.

End Engine.

(** ** Vocabulary of the statements on such tables *)

Definition is_mapping (v : yaml) : bool :=
  match v with YMap _ => true | _ => false end.

(** The shape that the comment in the port loop gives to [port_roles]: a
    dict whose values are dicts. *)
Definition maps_to_mappings (v : yaml) : bool :=
  match v with
  | YMap pairs => forallb (λ kv, is_mapping kv.2) pairs
  | _ => false
  end.

(** The shape of [fingerprint_patterns]: a list of dicts. *)
Definition list_of_mappings (v : yaml) : bool :=
  match v with
  | YSeq items => forallb is_mapping items
  | _ => false
  end.

(** [entry.get(key)] for an entry that is a dict. *)
Definition field (entry : yaml) (key : string) : yaml :=
  match entry with
  | YMap pairs => default YNull (lookup_key pairs key)
  | _ => YNull
  end.

(** Each rule of the list whose regex, vendor and device type are all truthy
    has a string for its regex, and [re.search] does not raise on it. *)
Definition patterns_accepted (re_search : string → string → re_result) (v : yaml) : Prop :=
  ∀ items entry,
    v = YSeq items → entry ∈ items →
    truthy (field entry "regex") = true → truthy (field entry "vendor") = true →
    truthy (field entry "device_type") = true →
    ∃ p, field entry "regex" = YStr p ∧ ∀ text, re_search p text ≠ ReError.

(** No entry of [port_roles] holds a null under a key. *)
Definition port_values_given (v : yaml) : Prop :=
  ∀ pairs k fields key,
    v = YMap pairs → (k, YMap fields) ∈ pairs → lookup_key fields key ≠ Some YNull.

End Untyped.

(** ** Tables of strings among the tables of any shape *)

(** A dict with string keys as a loaded value. *)
Definition yaml_of_dict {A} (value : A → yaml) (d : gmap string A) : yaml :=
  YMap ((λ kv, (YStr kv.1, value kv.2)) <$> map_to_list d).

(** The tables of [FingerprintEngine] as loaded values. *)
Definition tables_of (self : FingerprintEngine) : Untyped.tables :=
  Untyped.Tables (oui_dict self)
    (yaml_of_dict (yaml_of_dict YStr) (port_roles self))
    (YSeq (yaml_of_dict YStr <$> fingerprint_patterns self)).

(** A string or [None]. *)
Definition yaml_of_option (x : option string) : yaml :=
  match x with Some s => YStr s | None => YNull end.

Definition classified_of (c : classification) : Untyped.classified :=
  Untyped.Classified (YStr (vendor c)) (YStr (role_slug c)) (YStr (device_type c)).

Definition result_of {A B} (f : A → B) (r : outcome A) : Untyped.result B :=
  match r with
  | Ret a => Untyped.Returned (f a)
  | Raise (re_error p) => Untyped.Raised (Untyped.ReRaised p)
  end.

(** ** ASCII text *)

(** [c.isascii()] *)
Definition is_ascii (c : ascii) : bool := (N_of_ascii c <? 128)%N.

(** [s.isascii()]: on such a text [str.upper], [str.lower] and [str.strip]
    are the conversions of [PyStr] and [PyText]. *)
Definition is_ascii_text (s : string) : bool := PyStr.all is_ascii s.

(** The parts of the evidence that were received are ASCII text. *)
Definition ascii_evidence (ev : raw_evidence) : bool :=
  from_option is_ascii_text true ev.1 && from_option is_ascii_text true ev.2.

(** ** More concrete rule stores *)

Module Cases.

Import Scenarios.

(** The certificate of [mikrotik_net] in upper case; the page fetch fails in
    both. *)
Definition upper_cn_net : fetch_log → string → Z → raw_evidence :=
  Plain.const_net (Some "MIKROTIK.LOCAL", None).

(** A port entry without a device type, for port 443. *)
Definition role_only_entry : gmap string string := {[ "role" := "web" ]}.

Definition role_only_engine : FingerprintEngine :=
  Engine ∅ {[ "443" := role_only_entry ]} [mikrotik_rule].

(** The rule of [mikrotik_engine] and the entry above as loaded values. *)
Definition mikrotik_rule_loaded : yaml :=
  YMap [(YStr "regex", YStr "mikrotik"); (YStr "vendor", YStr "MikroTik");
        (YStr "device_type", YStr "RouterOS")].

Definition web_tables : Untyped.tables :=
  Untyped.Tables ∅
    (YMap [(YStr "443", YMap [(YStr "role", YStr "web")])])
    (YSeq [mikrotik_rule_loaded]).

(** A mappings file with the line [port_roles:] and nothing under it. *)
Definition null_roles_file : yaml := YMap [(YStr "port_roles", YNull)].

(** A rule list with a bare string for its only item. *)
Definition text_rule_file : yaml :=
  YMap [(YStr "fingerprint_patterns", YSeq [YStr "mikrotik"])].

(** A rule whose pattern is written as a number. *)
Definition number_rule_file : yaml :=
  YMap [(YStr "fingerprint_patterns",
         YSeq [YMap [(YStr "regex", YInt 443); (YStr "vendor", YStr "Acme");
                     (YStr "device_type", YStr "Switch")]])].

(** A port entry under a key written without quotes, which loads as a
    number. *)
Definition number_key_file : yaml :=
  YMap [(YStr "port_roles",
         YMap [(YInt 22, YMap [(YStr "role", YStr "server")])])].

(** A mappings file with one port entry and no rule. *)
Definition ssh_file : yaml :=
  YMap [(YStr "port_roles",
         YMap [(YStr "22", YMap [(YStr "role", YStr "server");
                                 (YStr "device_type", YStr "Linux Host")])])].

End Cases.

(** * Properties *)

(** ** Strings *)

Lemma nonempty_true s : PyStr.nonempty s = true ↔ s ≠ "".
Proof. destruct s; simpl; split; intros; congruence. Qed.

Lemma lower_upper_ascii c : PyStr.lower_ascii (PyStr.upper_ascii c) = PyStr.lower_ascii c.
Proof. destruct c as [[] [] [] [] [] [] [] []]; reflexivity. Qed.

Lemma append_cons c (p b : string) : String c p +:+ b = String c (p +:+ b).
Proof. reflexivity. Qed.

(** [String.prefix p s] holds exactly when [s] starts with [p]. *)
Lemma prefix_starts p s : String.prefix p s = true ↔ ∃ b, s = p +:+ b.
Proof.
  revert s. induction p as [|c p IH]; intros [|c' s]; simpl.
  - split; [intros _; by exists "" | done].
  - split; [intros _; by exists (String c' s) | done].
  - split; [done | intros [b Hb]; rewrite append_cons in Hb; discriminate].
  - destruct (Ascii.ascii_dec c c') as [<-|Hne].
    + rewrite IH. split; intros [b Hb]; exists b.
      * by rewrite append_cons, Hb.
      * rewrite append_cons in Hb. by injection Hb.
    + split; [done | intros [b Hb]; rewrite append_cons in Hb; congruence].
Qed.

Lemma contains_unfold p s :
  PyStr.contains p s =
  String.prefix p s ||
  match s with EmptyString => false | String _ s' => PyStr.contains p s' end.
Proof. by destruct s. Qed.

(** [PyStr.contains p s] holds exactly when [p] is a contiguous block of [s]. *)
Lemma contains_block p s : PyStr.contains p s = true ↔ ∃ a b, s = a +:+ p +:+ b.
Proof.
  split.
  - induction s as [|c s IH]; rewrite contains_unfold, orb_true_iff, prefix_starts.
    + intros [[b Hb]|?]; [by exists "", b | done].
    + intros [[b Hb]|Hin]; [by exists "", b|].
      destruct (IH Hin) as (a & b & ->). exists (String c a), b.
      by rewrite append_cons.
  - intros (a & b & ->). induction a as [|c a IH].
    + rewrite contains_unfold, orb_true_iff. left.
      apply prefix_starts. by exists b.
    + rewrite append_cons, contains_unfold, IH. apply orb_true_r.
Qed.

(** Upper-casing a text first does not change its lower-cased form. *)
Lemma lower_upper s : PyStr.lower (PyStr.upper s) = PyStr.lower s.
Proof.
  induction s as [|c s IH]; [done|].
  cbn. fold (PyStr.upper s) (PyStr.lower (PyStr.upper s)) (PyStr.lower s).
  by rewrite lower_upper_ascii, IH.
Qed.

(** ** The steps of the engine *)

Section Facts.

Variable re_search : string → string → re_result.
Variable net : fetch_log → string → Z → raw_evidence.

(** The OS guess changes nothing. *)
Lemma os_refine_id v os : os_refine v os = v.
Proof. unfold os_refine. destruct os; [by destruct (_ && _) | done]. Qed.

(** The OUI step in terms of the table. *)
Lemma oui_lookup_hit self m v0 v :
  m ≠ "" → oui_dict self !! PyStr.upper (PyStr.take 8 m) = Some v → v ≠ "" →
  oui_lookup self (Some m) v0 = v.
Proof.
  intros Hm Hv Hne. unfold oui_lookup.
  apply nonempty_true in Hm, Hne. by rewrite Hm, Hv, Hne.
Qed.

Lemma oui_lookup_nonempty self mac v0 : v0 ≠ "" → oui_lookup self mac v0 ≠ "".
Proof.
  intros Hv0. unfold oui_lookup.
  destruct mac as [m|]; [|done].
  destruct (PyStr.nonempty m); [|done].
  destruct (oui_dict self !! _) as [v|]; [|done].
  destruct (PyStr.nonempty v) eqn:Hv; [|done].
  by apply nonempty_true.
Qed.

(** Step 3 fills a field only when it is still at its default, and only with
    a text that is not empty. *)
Lemma fill_default_keeps found current default_value :
  current ≠ default_value → fill_default found current default_value = current.
Proof.
  intros Hne. unfold fill_default. destruct found as [x|]; [|done].
  apply String.eqb_neq in Hne. by rewrite Hne, andb_false_r.
Qed.

Lemma fill_default_nonempty found current default_value :
  current ≠ "" → fill_default found current default_value ≠ "".
Proof.
  intros Hne. unfold fill_default. destruct found as [x|]; [|done].
  destruct (PyStr.nonempty x) eqn:Hx; [|done].
  destruct (_ =? _); [by apply nonempty_true | done].
Qed.

(** The port loop stops at the first port with an entry. *)
Lemma port_lookup_first roles before p after entry rs dt :
  no_port_rule roles before → roles !! pretty p = Some entry →
  port_lookup roles (before ++ p :: after) rs dt
  = (default rs (entry !! "role"), default dt (entry !! "device_type")).
Proof.
  intros Hbefore Hp. induction Hbefore as [|q before Hq _ IH]; simpl.
  - by rewrite Hp.
  - by rewrite Hq.
Qed.

Lemma port_lookup_none roles ports rs dt :
  no_port_rule roles ports → port_lookup roles ports rs dt = (rs, dt).
Proof.
  intros H. induction H as [|q ports Hq _ IH]; simpl; [done|]. by rewrite Hq.
Qed.

(** Either some port has an entry, and the first such port decides, or none
    has. *)
Lemma port_lookup_cases roles ports :
  no_port_rule roles ports ∨
  ∃ before p after entry,
    ports = before ++ p :: after ∧ no_port_rule roles before ∧
    roles !! pretty p = Some entry.
Proof.
  induction ports as [|q ports IH].
  - left. constructor.
  - destruct (roles !! pretty q) as [entry|] eqn:Hq.
    + right. exists [], q, ports, entry. repeat split; [constructor | done].
    + destruct IH as [IH | (before & p & after & entry & -> & Hb & Hp)].
      * left. by constructor.
      * right. exists (q :: before), p, after, entry.
        repeat split; [by constructor | done].
Qed.

Lemma port_lookup_nonempty self ports rs dt :
  port_values_nonempty self → rs ≠ "" → dt ≠ "" →
  (port_lookup (port_roles self) ports rs dt).1 ≠ "" ∧
  (port_lookup (port_roles self) ports rs dt).2 ≠ "".
Proof.
  intros Hne Hrs Hdt.
  destruct (port_lookup_cases (port_roles self) ports)
    as [Hnone | (before & p & after & entry & -> & Hb & Hp)].
  - by rewrite port_lookup_none.
  - rewrite (port_lookup_first _ _ _ _ entry) by done. simpl.
    destruct (Hne _ _ Hp) as [Hr Hd].
    split; [destruct (entry !! "role") | destruct (entry !! "device_type")];
      simpl; congruence.
Qed.

(** An entry either passes the test of the matcher or is skipped. *)
Lemma complete_rule_cases (entry : gmap string string) :
  (∃ p v d, complete_rule entry p v d) ∨ (∀ p v d, ¬ complete_rule entry p v d).
Proof.
  unfold complete_rule.
  destruct (entry !! "regex") as [p|]; [|right; intros ??? (? & _); done].
  destruct (entry !! "vendor") as [v|]; [|right; intros ??? (_ & ? & _); done].
  destruct (entry !! "device_type") as [d|]; [|right; intros ??? (_ & _ & ? & _); done].
  destruct (decide (p = "")) as [->|Hp];
    [right; intros ??? (? & _ & _ & ? & _); congruence|].
  destruct (decide (v = "")) as [->|Hv];
    [right; intros ??? (_ & ? & _ & _ & ? & _); congruence|].
  destruct (decide (d = "")) as [->|Hd];
    [right; intros ??? (_ & _ & ? & _ & _ & ?); congruence|].
  left. by exists p, v, d.
Qed.

Lemma search_patterns_complete entry rest text p v d :
  complete_rule entry p v d →
  search_patterns re_search (entry :: rest) text =
  match re_search p text with
  | ReError => Raise (re_error p)
  | ReFound => Ret (Some v, Some d)
  | ReNoMatch => search_patterns re_search rest text
  end.
Proof.
  intros (Hp & Hv & Hd & Hpn & Hvn & Hdn). simpl. rewrite Hp, Hv, Hd.
  apply nonempty_true in Hpn, Hvn, Hdn. by rewrite Hpn, Hvn, Hdn.
Qed.

Lemma search_patterns_incomplete entry rest text :
  (∀ p v d, ¬ complete_rule entry p v d) →
  search_patterns re_search (entry :: rest) text = search_patterns re_search rest text.
Proof.
  intros Hno. simpl.
  destruct (entry !! "regex") as [p|] eqn:Hp; [|done].
  destruct (entry !! "vendor") as [v|] eqn:Hv; [|done].
  destruct (entry !! "device_type") as [d|] eqn:Hd; [|done].
  destruct (PyStr.nonempty p) eqn:Hpn; [|done].
  destruct (PyStr.nonempty v) eqn:Hvn; [|done].
  destruct (PyStr.nonempty d) eqn:Hdn; [|done].
  apply nonempty_true in Hpn, Hvn, Hdn.
  destruct (Hno p v d). by repeat split.
Qed.

(** Rules that do not match are passed over. *)
Lemma search_patterns_skip before rest text :
  none_matches re_search before text →
  search_patterns re_search (before ++ rest) text = search_patterns re_search rest text.
Proof.
  intros H. induction H as [|entry before Hentry _ IH]; [done|].
  rewrite <- app_comm_cons.
  destruct (complete_rule_cases entry) as [(p & v & d & Hc) | Hno].
  - rewrite (search_patterns_complete _ _ _ _ _ _ Hc), (Hentry _ _ _ Hc). exact IH.
  - by rewrite search_patterns_incomplete.
Qed.

(** What the loop can return: nothing, or the vendor and type of a rule that
    passes the test and matches. *)
Lemma search_patterns_ret rules text ov od :
  search_patterns re_search rules text = Ret (ov, od) →
  (ov = None ∧ od = None) ∨
  (∃ entry p v d, entry ∈ rules ∧ complete_rule entry p v d ∧
                  re_search p text = ReFound ∧ ov = Some v ∧ od = Some d).
Proof.
  induction rules as [|entry rules IH]; intros H.
  - injection H as <- <-. by left.
  - destruct (complete_rule_cases entry) as [(p & v & d & Hc) | Hno].
    + rewrite (search_patterns_complete _ _ _ _ _ _ Hc) in H.
      destruct (re_search p text) eqn:Hre; [done | |].
      * destruct (IH H) as [?|(e & p' & v' & d' & He & ?)]; [by left|].
        right. exists e, p', v', d'. split; [by apply elem_of_cons; right | done].
      * injection H as <- <-. right. exists entry, p, v, d.
        split; [apply elem_of_cons; by left | done].
    + rewrite search_patterns_incomplete in H by done.
      destruct (IH H) as [?|(e & p' & v' & d' & He & ?)]; [by left|].
      right. exists e, p', v', d'. split; [by apply elem_of_cons; right | done].
Qed.

(** The loop raises only on a pattern that [re] rejects. *)
Lemma search_patterns_total rules text :
  (∀ entry p v d, entry ∈ rules → complete_rule entry p v d → re_search p text ≠ ReError) →
  ∃ r, search_patterns re_search rules text = Ret r.
Proof.
  induction rules as [|entry rules IH]; intros Hok; [by eexists|].
  assert (∃ r, search_patterns re_search rules text = Ret r) as Hrest.
  { apply IH. intros e p v d He. apply Hok, elem_of_cons. by right. }
  destruct (complete_rule_cases entry) as [(p & v & d & Hc) | Hno].
  - rewrite (search_patterns_complete _ _ _ _ _ _ Hc).
    specialize (Hok entry p v d (list_elem_of_here _ _) Hc).
    destruct (re_search p text); [done | done | by eexists].
  - by rewrite search_patterns_incomplete.
Qed.

(** One run of [fingerprint_host], step by step. *)
Lemma fingerprint_host_run self host lg :
  fingerprint_host re_search net self host lg =
  let v1 := oui_lookup self (mac_addr host) DEFAULT_VENDOR in
  let rd := port_lookup (port_roles self) (open_ports host)
              DEFAULT_ROLE_SLUG DEFAULT_DEVICE_TYPE in
  if tls_wanted (open_ports host) v1 rd.2 then
    let ev := net lg (ip_addr host) 443 in
    match _regex_fingerprint re_search self (lowered ev.1) (lowered ev.2) with
    | Ret (v2, dt2) =>
        (lg ++ [(ip_addr host, 443)],
         Ret (Classification
                (fill_default v2 v1 DEFAULT_VENDOR)
                rd.1
                (fill_default dt2 rd.2 DEFAULT_DEVICE_TYPE)))
    | Raise e => (lg ++ [(ip_addr host, 443)], Raise e)
    end
  else (lg, Ret (Classification v1 rd.1 rd.2)).
Proof.
  unfold fingerprint_host, tls_refine. cbv zeta.
  destruct (port_lookup _ _ _ _) as [rs dt]. cbn [fst snd].
  destruct (tls_wanted _ _ _).
  - unfold mbind, M_bind, _fetch_cert_and_page, lift, mret, M_ret.
    destruct (net lg (ip_addr host) 443) as [cn page]. cbn [fst snd].
    destruct (_regex_fingerprint _ _ _ _) as [[v2 dt2]|e]; [|done].
    by rewrite os_refine_id.
  - unfold mbind, M_bind, mret, M_ret. by rewrite os_refine_id.
Qed.

(** [fingerprint_host] raises only on a pattern that [re] rejects. *)
Lemma fingerprint_host_total self host lg :
  patterns_compile re_search self →
  ∃ lg' c, fingerprint_host re_search net self host lg = (lg', Ret c).
Proof.
  intros Hok. rewrite fingerprint_host_run. cbv zeta.
  destruct (tls_wanted _ _ _); [|by eexists _, _].
  unfold _regex_fingerprint. destruct (PyStr.blank _); [by eexists _, _|].
  edestruct (search_patterns_total (fingerprint_patterns self)) as [[v2 dt2] ->];
    [|by eexists _, _].
  intros entry p v d He Hc. by eapply Hok.
Qed.

(** A property of every classification that a run can return is a property
    of the run. *)
Lemma returns_with_intro self host lg (P : classification → Prop) :
  (∀ lg' c, fingerprint_host re_search net self host lg = (lg', Ret c) → P c) →
  returns_with re_search self (fingerprint_host re_search net self host lg) P.
Proof.
  intros HP. unfold returns_with.
  destruct (fingerprint_host re_search net self host lg) as [lg' [c|e]] eqn:Hrun;
    cbn [snd].
  - by eapply HP.
  - intros Hok. destruct (fingerprint_host_total self host lg Hok) as (? & ? & Heq).
    congruence.
Qed.

End Facts.

(** ** The engine on tables of any shape *)

Section UntypedFacts.

Variable re_search : string → string → re_result.
Variable net : fetch_log → string → Z → raw_evidence.

Lemma untyped_lookup_key_elem pairs key x :
  Untyped.lookup_key pairs key = Some x → ∃ k, (k, x) ∈ pairs.
Proof.
  induction pairs as [|[k y] pairs IH]; simpl; [done|].
  destruct (Untyped.is_text k key).
  - intros [= <-]. exists k. apply list_elem_of_here.
  - intros (k' & Hk')%IH. exists k'. apply elem_of_cons. by right.
Qed.

Lemma untyped_truthy_not_null v : Untyped.truthy v = true → v ≠ YNull.
Proof. by intros H ->. Qed.

Lemma untyped_fill_default_not_null found current default_value :
  current ≠ YNull → Untyped.fill_default found current default_value ≠ YNull.
Proof.
  intros Hc. unfold Untyped.fill_default.
  destruct (Untyped.truthy found) eqn:Hf; [|done].
  destruct (Untyped.is_text current default_value); [by apply untyped_truthy_not_null | done].
Qed.

Lemma untyped_fill_default_keeps found v default_value :
  v ≠ default_value →
  Untyped.fill_default found (YStr v) default_value = YStr v.
Proof.
  intros Hne. unfold Untyped.fill_default. cbn [Untyped.is_text].
  apply String.eqb_neq in Hne. by rewrite Hne, andb_false_r.
Qed.

Lemma untyped_os_refine_id v os : Untyped.os_refine v os = v.
Proof. unfold Untyped.os_refine. destruct os; [by destruct (_ && _) | done]. Qed.

Lemma untyped_oui_lookup_text self mac :
  ∃ v, Untyped.oui_lookup self mac (YStr DEFAULT_VENDOR) = YStr v.
Proof.
  unfold Untyped.oui_lookup. destruct mac as [m|]; [|by eexists].
  destruct (PyStr.nonempty m); [|by eexists].
  destruct (Untyped.t_oui_dict self !! _) as [v|]; [|by eexists].
  destruct (PyStr.nonempty v); by eexists.
Qed.

Lemma untyped_oui_lookup_hit self m v0 v :
  m ≠ "" → Untyped.t_oui_dict self !! PyStr.upper (PyStr.take 8 m) = Some v → v ≠ "" →
  Untyped.oui_lookup self (Some m) v0 = YStr v.
Proof.
  intros Hm Hv Hne. unfold Untyped.oui_lookup.
  apply nonempty_true in Hm, Hne. by rewrite Hm, Hv, Hne.
Qed.

(** On a dict of dicts the port loop returns, and what it returns is null
    only if an entry holds a null. *)
Lemma untyped_port_lookup_returns roles ports rs dt :
  Untyped.maps_to_mappings roles = true →
  ∃ r, Untyped.port_lookup roles ports rs dt = Untyped.Returned r ∧
       (Untyped.port_values_given roles → rs ≠ YNull → dt ≠ YNull →
        r.1 ≠ YNull ∧ r.2 ≠ YNull).
Proof.
  intros Hshape. destruct roles as [| | | | |pairs|]; try done.
  cbn [Untyped.maps_to_mappings] in Hshape. rewrite forallb_forall in Hshape.
  induction ports as [|p ports IH]; [exists (rs, dt); split; [done | by intros]|].
  cbn [Untyped.port_lookup Untyped.has_key Untyped.item].
  destruct (Untyped.lookup_key pairs (pretty p)) as [entry|] eqn:Hp; [|exact IH].
  destruct (untyped_lookup_key_elem _ _ _ Hp) as [k Hk].
  pose proof (Hshape _ (proj1 (list_elem_of_In _ _) Hk)) as Hentry. cbn [snd] in Hentry.
  destruct entry as [| | | | |fields|]; try done.
  cbn [Untyped.get]. eexists. split; [done|].
  intros Hgiven Hrs Hdt. cbn [fst snd].
  pose proof (Hgiven pairs k fields "role" eq_refl Hk) as Hr.
  pose proof (Hgiven pairs k fields "device_type" eq_refl Hk) as Hd.
  split.
  - destruct (Untyped.lookup_key fields "role"); simpl; congruence.
  - destruct (Untyped.lookup_key fields "device_type"); simpl; congruence.
Qed.

(** On a list of dicts the loop of the matcher returns when [re.search]
    takes the patterns that reach it, and it returns two nulls or two truthy
    values. *)
Lemma untyped_search_patterns_returns items text :
  forallb Untyped.is_mapping items = true →
  (∀ entry, entry ∈ items →
     Untyped.truthy (Untyped.field entry "regex") = true →
     Untyped.truthy (Untyped.field entry "vendor") = true →
     Untyped.truthy (Untyped.field entry "device_type") = true →
     ∃ p, Untyped.field entry "regex" = YStr p ∧ re_search p text ≠ ReError) →
  ∃ r, Untyped.search_patterns re_search items text = Untyped.Returned r ∧
       (r = (YNull, YNull) ∨ Untyped.truthy r.1 = true ∧ Untyped.truthy r.2 = true).
Proof.
  induction items as [|entry items IH]; intros Hshape Hok.
  { exists (YNull, YNull). split; [done | by left]. }
  cbn [forallb] in Hshape. apply andb_true_iff in Hshape as [Hentry Hrest].
  specialize (IH Hrest).
  assert (∃ r, Untyped.search_patterns re_search items text = Untyped.Returned r ∧
               (r = (YNull, YNull) ∨
                Untyped.truthy r.1 = true ∧ Untyped.truthy r.2 = true)) as Hnext.
  { apply IH. intros e He. apply Hok, elem_of_cons. by right. }
  specialize (Hok entry (list_elem_of_here _ _)).
  destruct entry as [| | | | |fields|]; try done.
  cbn [Untyped.search_patterns Untyped.get]. cbn [Untyped.field] in Hok.
  destruct (Untyped.truthy (default YNull (Untyped.lookup_key fields "regex")))
    eqn:Hp; [|exact Hnext].
  destruct (Untyped.truthy (default YNull (Untyped.lookup_key fields "vendor")))
    eqn:Hv; [|exact Hnext].
  destruct (Untyped.truthy (default YNull (Untyped.lookup_key fields "device_type")))
    eqn:Hd; [|exact Hnext].
  destruct (Hok eq_refl eq_refl eq_refl) as (p & Hpat & Hre).
  cbn [andb]. rewrite Hpat.
  destruct (re_search p text); [done | exact Hnext |].
  eexists. split; [done|]. right. by cbn [fst snd].
Qed.

(** A vendor found by the OUI step that is not the text "Unknown" is the
    vendor of every record returned. *)
Lemma untyped_vendor_kept self host lg lg' c v :
  Untyped.oui_lookup self (mac_addr host) (YStr DEFAULT_VENDOR) = YStr v →
  v ≠ "Unknown" →
  Untyped.fingerprint_host re_search net self host lg = (lg', Untyped.Returned c) →
  Untyped.c_vendor c = YStr v.
Proof.
  intros Hv Hne. unfold Untyped.fingerprint_host. cbv zeta. rewrite Hv.
  destruct (Untyped.port_lookup _ _ _ _) as [[rs dt]|e]; [|done].
  destruct (_ && _).
  - destruct (net lg (ip_addr host) 443) as [cn page].
    destruct (Untyped._regex_fingerprint _ _ _ _) as [[v2 dt2]|e]; [|done].
    intros [= _ <-]. cbn [Untyped.c_vendor].
    by rewrite untyped_os_refine_id, untyped_fill_default_keeps.
  - intros [= _ <-]. cbn [Untyped.c_vendor]. by rewrite untyped_os_refine_id.
Qed.

(** On tables of strings the engine of this part is the engine of the first
    part. *)
Lemma lookup_key_of_list {A} (value : A → yaml) (l : list (string * A)) key :
  Untyped.lookup_key ((λ kv, (YStr kv.1, value kv.2)) <$> l) key
  = value <$> (list_to_map l : gmap string A) !! key.
Proof.
  induction l as [|[k x] l IH]; [by rewrite list_to_map_nil, lookup_empty|].
  rewrite list_to_map_cons.
  cbn [fmap list_fmap Untyped.lookup_key Untyped.is_text fst snd].
  destruct (String.eqb_spec k key) as [->|Hne].
  - by rewrite lookup_insert_eq.
  - rewrite lookup_insert_ne by done. exact IH.
Qed.

Lemma lookup_key_of_dict {A} (value : A → yaml) (d : gmap string A) key :
  match yaml_of_dict value d with
  | YMap pairs => Untyped.lookup_key pairs key
  | _ => None
  end = value <$> d !! key.
Proof.
  unfold yaml_of_dict. by rewrite lookup_key_of_list, list_to_map_to_list.
Qed.

Lemma get_of_dict (d : gmap string string) key default_value :
  Untyped.get (yaml_of_dict YStr d) key (YStr default_value)
  = Untyped.Returned (YStr (default default_value (d !! key))).
Proof.
  pose proof (lookup_key_of_dict YStr d key) as H. unfold yaml_of_dict in *.
  cbn [Untyped.get]. rewrite H. by destruct (d !! key).
Qed.

Lemma get_of_dict_null (d : gmap string string) key :
  Untyped.get (yaml_of_dict YStr d) key YNull
  = Untyped.Returned (yaml_of_option (d !! key)).
Proof.
  pose proof (lookup_key_of_dict YStr d key) as H. unfold yaml_of_dict in *.
  cbn [Untyped.get]. rewrite H. by destruct (d !! key).
Qed.

Lemma truthy_of_option x :
  Untyped.truthy (yaml_of_option x) = from_option PyStr.nonempty false x.
Proof. by destruct x. Qed.

Lemma oui_lookup_of self mac v0 :
  Untyped.oui_lookup (tables_of self) mac (YStr v0) = YStr (oui_lookup self mac v0).
Proof.
  unfold Untyped.oui_lookup, oui_lookup. cbn [tables_of Untyped.t_oui_dict].
  destruct mac as [m|]; [|done].
  destruct (PyStr.nonempty m); [|done].
  destruct (oui_dict self !! _) as [v|]; [|done].
  by destruct (PyStr.nonempty v).
Qed.

Lemma has_key_of_dict {A} (value : A → yaml) (d : gmap string A) key :
  Untyped.has_key (yaml_of_dict value d) key
  = Untyped.Returned (match d !! key with Some _ => true | None => false end).
Proof.
  pose proof (lookup_key_of_dict value d key) as H. unfold yaml_of_dict in *.
  cbn [Untyped.has_key]. rewrite H. by destruct (d !! key).
Qed.

Lemma item_of_dict {A} (value : A → yaml) (d : gmap string A) key x :
  d !! key = Some x →
  Untyped.item (yaml_of_dict value d) key = Untyped.Returned (value x).
Proof.
  intros Hx. pose proof (lookup_key_of_dict value d key) as H.
  unfold yaml_of_dict in *. cbn [Untyped.item]. by rewrite H, Hx.
Qed.

Lemma port_lookup_of roles ports rs dt :
  Untyped.port_lookup (yaml_of_dict (yaml_of_dict YStr) roles) ports (YStr rs) (YStr dt)
  = Untyped.Returned (YStr (port_lookup roles ports rs dt).1,
                      YStr (port_lookup roles ports rs dt).2).
Proof.
  induction ports as [|p ports IH]; [done|].
  cbn [Untyped.port_lookup port_lookup]. rewrite has_key_of_dict.
  destruct (roles !! pretty p) as [entry|] eqn:Hp; [|exact IH].
  by rewrite (item_of_dict _ _ _ _ Hp), !get_of_dict.
Qed.

Lemma search_patterns_of rules text :
  Untyped.search_patterns re_search (yaml_of_dict YStr <$> rules) text
  = result_of (λ r, (yaml_of_option r.1, yaml_of_option r.2))
      (search_patterns re_search rules text).
Proof.
  induction rules as [|entry rules IH]; [done|].
  cbn [fmap list_fmap Untyped.search_patterns search_patterns].
  rewrite !get_of_dict_null, !truthy_of_option.
  destruct (entry !! "regex") as [p|]; [|exact IH].
  destruct (entry !! "vendor") as [v|];
    [|cbn [from_option]; rewrite andb_false_r; exact IH].
  destruct (entry !! "device_type") as [d|];
    [|cbn [from_option]; rewrite andb_false_r; exact IH].
  cbn [from_option yaml_of_option].
  destruct (PyStr.nonempty p && PyStr.nonempty v && PyStr.nonempty d); [|exact IH].
  by destruct (re_search p text).
Qed.

Lemma fill_default_of found current default_value :
  Untyped.fill_default (yaml_of_option found) (YStr current) default_value
  = YStr (fill_default found current default_value).
Proof.
  unfold Untyped.fill_default, fill_default. rewrite truthy_of_option.
  destruct found as [x|]; [|done]. cbn [from_option Untyped.is_text].
  by destruct (_ && _).
Qed.

Lemma fingerprint_host_of self host lg :
  Untyped.fingerprint_host re_search net (tables_of self) host lg
  = ((fingerprint_host re_search net self host lg).1,
     result_of classified_of (fingerprint_host re_search net self host lg).2).
Proof.
  rewrite fingerprint_host_run. unfold Untyped.fingerprint_host. cbv zeta.
  rewrite oui_lookup_of. cbn [tables_of Untyped.t_port_roles].
  rewrite port_lookup_of. cbn [Untyped.is_text]. fold (tls_wanted (open_ports host)
    (oui_lookup self (mac_addr host) DEFAULT_VENDOR)
    (port_lookup (port_roles self) (open_ports host)
       DEFAULT_ROLE_SLUG DEFAULT_DEVICE_TYPE).2).
  destruct (tls_wanted _ _ _); [|by rewrite untyped_os_refine_id].
  destruct (net lg (ip_addr host) 443) as [cn page]. cbn [fst snd].
  unfold Untyped._regex_fingerprint, _regex_fingerprint. cbv zeta.
  cbn [Untyped.t_fingerprint_patterns Untyped.iterate].
  destruct (PyStr.blank _).
  - by rewrite untyped_os_refine_id, !(fill_default_of None).
  - cbn [tables_of Untyped.t_fingerprint_patterns Untyped.iterate].
    rewrite search_patterns_of.
    destruct (search_patterns re_search (fingerprint_patterns self) _)
      as [[v2 dt2]|[p]]; [|done].
    cbn [result_of fst snd]. by rewrite untyped_os_refine_id, !fill_default_of.
Qed.

Lemma untyped_load_all_oui_dict oui_file mappings_file self :
  Untyped.load_all oui_file mappings_file = Untyped.Returned self →
  Untyped.t_oui_dict self = load_oui oui_file ∅.
Proof.
  unfold Untyped.load_all, Untyped.load_mappings. cbv zeta.
  destruct mappings_file as [loaded|]; [|by intros [= <-]].
  destruct (Untyped.get _ "port_roles" _) as [roles|]; [|done].
  destruct (Untyped.get _ "fingerprint_patterns" _) as [rules|]; [|done].
  by intros [= <-].
Qed.

End UntypedFacts.

(** ** The claims *)

Section Claims.

Variable re_search : string → string → re_result.
Variable net : fetch_log → string → Z → raw_evidence.

(** C1 (amended). When the MAC address is present (a non-empty string) and
    its first eight characters, upper-cased, are a key of [oui_dict] whose
    vendor is not the empty string, the classification that
    [fingerprint_host] returns has that vendor, whatever the ports, the OS
    guess and the evidence are, provided the vendor is not the text "Unknown"
    or port 443 is not open. *)
Theorem C1_oui_vendor_kept self host m v lg :
  mac_addr host = Some m → m ≠ "" →
  oui_dict self !! PyStr.upper (PyStr.take 8 m) = Some v →
  v ≠ "" → v ≠ "Unknown" ∨ 443 ∉ open_ports host →
  returns_with re_search self (fingerprint_host re_search net self host lg)
    (λ c, vendor c = v).
Proof.
  intros Hmac Hm Hv Hne Hguard. apply returns_with_intro. intros lg' c.
  rewrite fingerprint_host_run. cbv zeta.
  rewrite Hmac, (oui_lookup_hit self m _ v Hm Hv Hne).
  destruct (tls_wanted _ _ _) eqn:Hw; [|by intros [= _ <-]].
  destruct (_regex_fingerprint _ _ _ _) as [[v2 dt2]|e]; [|done].
  intros [= _ <-]. cbn [vendor]. apply fill_default_keeps.
  destruct Hguard as [?|Hno]; [done|].
  apply andb_true_iff in Hw as [Hin _]. by apply bool_decide_eq_true in Hin.
Qed.

(** C2 (amended). When the first port of [open_ports] that is a key of
    [port_roles] maps to the role [r] and the device type [d], the
    classification returned has the role [r], whatever the later ports map
    to, and has the device type [d] provided [d] is not the text "Unknown" or
    port 443 is not open. *)
Theorem C2_first_port_decides self host before p after entry r d lg :
  open_ports host = before ++ p :: after →
  no_port_rule (port_roles self) before →
  port_roles self !! pretty p = Some entry →
  entry !! "role" = Some r → entry !! "device_type" = Some d →
  returns_with re_search self (fingerprint_host re_search net self host lg)
    (λ c, role_slug c = r ∧
          (d ≠ "Unknown" ∨ 443 ∉ open_ports host → device_type c = d)).
Proof.
  intros Hports Hbefore Hp Hr Hd. apply returns_with_intro. intros lg' c.
  rewrite fingerprint_host_run. cbv zeta.
  pose proof (port_lookup_first (port_roles self) before p after entry
                DEFAULT_ROLE_SLUG DEFAULT_DEVICE_TYPE Hbefore Hp) as Hloop.
  rewrite <- Hports, Hr, Hd in Hloop. rewrite Hloop. cbn [fst snd default].
  destruct (tls_wanted _ _ _) eqn:Hw; [|intros [= _ <-]; by split].
  destruct (_regex_fingerprint _ _ _ _) as [[v2 dt2]|e]; [|done].
  intros [= _ <-]. cbn [role_slug device_type]. split; [done|].
  intros Hguard. apply fill_default_keeps.
  destruct Hguard as [?|Hno]; [done|].
  apply andb_true_iff in Hw as [Hin _]. by apply bool_decide_eq_true in Hin.
Qed.

(** C3. One run of [fingerprint_host] fetches the evidence of
    [(ip_addr, 443)] once if port 443 is open and the vendor or the device
    type is still "Unknown" after the OUI and the port steps, and fetches
    nothing otherwise. *)
Theorem C3_fetch_iff_unresolved self host lg :
  let vendor := oui_lookup self (mac_addr host) DEFAULT_VENDOR in
  let device_type :=
    (port_lookup (port_roles self) (open_ports host)
       DEFAULT_ROLE_SLUG DEFAULT_DEVICE_TYPE).2 in
  let unresolved :=
    443 ∈ open_ports host ∧
    (vendor = DEFAULT_VENDOR ∨ device_type = DEFAULT_DEVICE_TYPE) in
  let lg' := (fingerprint_host re_search net self host lg).1 in
  (lg' = lg ++ [(ip_addr host, 443)] ↔ unresolved) ∧ (lg' = lg ↔ ¬ unresolved).
Proof.
  cbv zeta. rewrite fingerprint_host_run. cbv zeta.
  set (v1 := oui_lookup _ _ _). set (rd := port_lookup _ _ _ _).
  assert (tls_wanted (open_ports host) v1 rd.2 = true ↔
          443 ∈ open_ports host ∧ (v1 = DEFAULT_VENDOR ∨ rd.2 = DEFAULT_DEVICE_TYPE))
    as Hwanted.
  { unfold tls_wanted.
    rewrite andb_true_iff, orb_true_iff, bool_decide_eq_true, !String.eqb_eq. done. }
  assert (lg ++ [(ip_addr host, 443)] ≠ lg) as Hgrow.
  { intros Heq. apply (f_equal (@List.length _)) in Heq. rewrite List.length_app in Heq.
    simpl in Heq. lia. }
  destruct (tls_wanted _ _ _).
  - assert ((443 ∈ open_ports host ∧ (v1 = DEFAULT_VENDOR ∨ rd.2 = DEFAULT_DEVICE_TYPE)))
      as Hyes by (by apply Hwanted).
    destruct (_regex_fingerprint _ _ _ _) as [[v2 dt2]|e]; cbn [fst];
      (split; split; [done | done | by intros ?%Hgrow | done]).
  - assert (¬ (443 ∈ open_ports host ∧ (v1 = DEFAULT_VENDOR ∨ rd.2 = DEFAULT_DEVICE_TYPE)))
      as Hnot by (intros ?%Hwanted; done).
    cbn [fst]. split; split; [by intros ?%eq_sym%Hgrow | done | done | done].
Qed.

(** C4 (amended). On a combined text that is not blank, [_regex_fingerprint]
    goes through the rules whose regex, vendor and device type are all
    present and not empty, in list order, and returns the vendor and device
    type of the first one whose pattern matches, when [re.search] finds no
    match for each such rule before it; it returns [(None, None)] when
    [re.search] finds no match for any such rule. *)
Theorem C4_first_complete_match self cert_cn page_text :
  let combined := cert_cn +:+ " " +:+ page_text in
  PyStr.blank combined = false →
  (∀ before entry after p v d,
     fingerprint_patterns self = before ++ entry :: after →
     none_matches re_search before combined →
     complete_rule entry p v d → re_search p combined = ReFound →
     _regex_fingerprint re_search self cert_cn page_text = Ret (Some v, Some d))
  ∧ (none_matches re_search (fingerprint_patterns self) combined →
     _regex_fingerprint re_search self cert_cn page_text = Ret (None, None)).
Proof.
  intros combined Hblank. unfold _regex_fingerprint. fold combined. rewrite Hblank.
  split.
  - intros before entry after p v d -> Hbefore Hc Hfound.
    rewrite search_patterns_skip by done.
    by rewrite (search_patterns_complete _ _ _ _ _ _ _ Hc), Hfound.
  - intros Hnone.
    rewrite <- (app_nil_r (fingerprint_patterns self)).
    by rewrite search_patterns_skip.
Qed.

(** C5 (amended). Matching does not depend on the letter case of evidence
    made of ASCII characters: two fetches whose certificate names and whose
    page texts are the same once lower-cased, a part that was not received
    counting as the empty text, give the same run of [fingerprint_host].
    Nothing is done about the letter case of a pattern: whether a rule with
    its three fields applies is what [re.search] answers for its pattern as
    it is written. *)
Theorem C5_evidence_case_ignored self :
  (∀ (net' : fetch_log → string → Z → raw_evidence) host lg,
     ascii_evidence (net lg (ip_addr host) 443) = true →
     ascii_evidence (net' lg (ip_addr host) 443) = true →
     lowered (net lg (ip_addr host) 443).1 = lowered (net' lg (ip_addr host) 443).1 →
     lowered (net lg (ip_addr host) 443).2 = lowered (net' lg (ip_addr host) 443).2 →
     fingerprint_host re_search net self host lg
     = fingerprint_host re_search net' self host lg)
  ∧ (∀ entry rest p v d text,
       complete_rule entry p v d →
       search_patterns re_search (entry :: rest) text =
       match re_search p text with
       | ReError => Raise (re_error p)
       | ReFound => Ret (Some v, Some d)
       | ReNoMatch => search_patterns re_search rest text
       end).
Proof.
  split.
  - intros net' host lg _ _ Hcn Hpage. rewrite !fingerprint_host_run. cbv zeta.
    by rewrite Hcn, Hpage.
  - intros entry rest p v d text Hc. by apply search_patterns_complete.
Qed.

(** C6 (amended). [fingerprint_host] returns a record with its three fields
    for every host and every log of earlier fetches when [port_roles] is a
    dict whose values are dicts, [fingerprint_patterns] is a list of dicts,
    and each rule whose regex, vendor and device type are all truthy has a
    string for its regex that [re] accepts; the rules that lack one of the
    three are skipped. No field of the record is null unless an entry of
    [port_roles] holds a null. *)
Theorem C6_returns_on_well_shaped_store self host lg :
  Untyped.maps_to_mappings (Untyped.t_port_roles self) = true →
  Untyped.list_of_mappings (Untyped.t_fingerprint_patterns self) = true →
  Untyped.patterns_accepted re_search (Untyped.t_fingerprint_patterns self) →
  ∃ lg' c,
    Untyped.fingerprint_host re_search net self host lg = (lg', Untyped.Returned c) ∧
    (Untyped.port_values_given (Untyped.t_port_roles self) →
     Untyped.c_vendor c ≠ YNull ∧ Untyped.c_role_slug c ≠ YNull ∧
     Untyped.c_device_type c ≠ YNull).
Proof.
  intros Hroles Hrules Hok. unfold Untyped.fingerprint_host. cbv zeta.
  destruct (untyped_oui_lookup_text self (mac_addr host)) as [v1 ->].
  destruct (untyped_port_lookup_returns (Untyped.t_port_roles self) (open_ports host)
              (YStr DEFAULT_ROLE_SLUG) (YStr DEFAULT_DEVICE_TYPE) Hroles)
    as ([rs dt] & -> & Hgiven).
  cbn [fst snd] in Hgiven.
  destruct (_ && _).
  2:{ eexists _, _. split; [done|]. intros Hg. cbn.
      rewrite untyped_os_refine_id.
      destruct (Hgiven Hg) as [? ?]; by repeat split. }
  destruct (net lg (ip_addr host) 443) as [cn page].
  assert (∃ r, Untyped._regex_fingerprint re_search self (lowered cn) (lowered page)
               = Untyped.Returned r ∧
               (r = (YNull, YNull) ∨
                Untyped.truthy r.1 = true ∧ Untyped.truthy r.2 = true))
    as ([v2 dt2] & -> & _).
  { unfold Untyped._regex_fingerprint. cbv zeta.
    destruct (PyStr.blank _); [eexists; split; [done | by left]|].
    destruct (Untyped.t_fingerprint_patterns self) as [| | | |items| |] eqn:Hitems;
      try done.
    cbn [Untyped.iterate]. apply untyped_search_patterns_returns; [done|].
    intros entry He Hp Hv Hd.
    destruct (Hok items entry eq_refl He Hp Hv Hd) as (p & Hpat & Hre).
    exists p. by split. }
  eexists _, _. split; [done|]. intros Hg. cbn.
  rewrite untyped_os_refine_id.
  destruct (Hgiven Hg) as [? ?]; [done | done |].
  repeat split; [| done |]; by apply untyped_fill_default_not_null.
Qed.

(** C7 (amended). When no entry of [port_roles] maps "role" or
    "device_type" to the empty string, none of the three fields of a returned
    classification is the empty string. *)
Theorem C7_fields_nonempty self host lg :
  port_values_nonempty self →
  returns_with re_search self (fingerprint_host re_search net self host lg)
    (λ c, vendor c ≠ "" ∧ role_slug c ≠ "" ∧ device_type c ≠ "").
Proof.
  intros Hports. apply returns_with_intro. intros lg' c.
  rewrite fingerprint_host_run. cbv zeta.
  pose proof (oui_lookup_nonempty self (mac_addr host) DEFAULT_VENDOR) as Hv.
  destruct (port_lookup_nonempty self (open_ports host) DEFAULT_ROLE_SLUG
              DEFAULT_DEVICE_TYPE Hports) as [Hr Hd]; [done | done |].
  destruct (tls_wanted _ _ _); [|intros [= _ <-]; by auto].
  destruct (_regex_fingerprint _ _ _ _) as [[v2 dt2]|e]; [|done].
  intros [= _ <-]. cbn [vendor role_slug device_type].
  split; [|split; [done|]]; apply fill_default_nonempty; by auto.
Qed.

(** C8. When the network gives the same evidence for the host at every
    fetch, a second call of [fingerprint_host] on the same host, after the
    first, ends as the first did. *)
Theorem C8_second_call_same self host ev lg :
  fixed_evidence net (ip_addr host) ev →
  let first := fingerprint_host re_search net self host lg in
  let second := fingerprint_host re_search net self host first.1 in
  second.2 = first.2.
Proof.
  intros Hfixed. cbv zeta. rewrite !fingerprint_host_run. cbv zeta.
  rewrite !Hfixed.
  destruct (tls_wanted _ _ _); [|done].
  by destruct (_regex_fingerprint _ _ _ _) as [[v2 dt2]|e].
Qed.

(** C9. Two hosts that differ only in their OS guess have the same run of
    [fingerprint_host]: the same fetches and the same classification. *)
Theorem C9_os_guess_ignored self ip mac ports os1 os2 lg :
  fingerprint_host re_search net self (HostData ip mac ports os1) lg
  = fingerprint_host re_search net self (HostData ip mac ports os2) lg.
Proof. by rewrite !fingerprint_host_run. Qed.

(** C10 (amended). The first port of [open_ports] with an entry decides,
    also when its entry lacks a key, and whatever the later ports map to:
    the role returned is the role of that entry, and "unknown" when the
    entry has none. The device type returned is the one of that entry when
    the entry has one and it is not the text "Unknown" or port 443 is not
    open. When the entry lacks "device_type", the device type returned is
    "Unknown" if port 443 is not open, and otherwise "Unknown" or the device
    type of a rule with its three fields whose pattern [re.search] finds in
    the evidence. *)
Theorem C10_partial_entry_applied self host before p after entry lg :
  open_ports host = before ++ p :: after →
  no_port_rule (port_roles self) before →
  port_roles self !! pretty p = Some entry →
  returns_with re_search self (fingerprint_host re_search net self host lg)
    (λ c,
       role_slug c = default DEFAULT_ROLE_SLUG (entry !! "role") ∧
       (∀ d, entry !! "device_type" = Some d →
             d ≠ "Unknown" ∨ 443 ∉ open_ports host → device_type c = d) ∧
       (entry !! "device_type" = None →
        (443 ∉ open_ports host → device_type c = DEFAULT_DEVICE_TYPE) ∧
        (device_type c = DEFAULT_DEVICE_TYPE ∨
         ∃ rule pat v,
           rule ∈ fingerprint_patterns self ∧
           complete_rule rule pat v (device_type c) ∧
           re_search pat (lowered (net lg (ip_addr host) 443).1 +:+ " " +:+
                          lowered (net lg (ip_addr host) 443).2) = ReFound))).
Proof.
  intros Hports Hbefore Hp. apply returns_with_intro. intros lg' c.
  rewrite fingerprint_host_run. cbv zeta.
  pose proof (port_lookup_first (port_roles self) before p after entry
                DEFAULT_ROLE_SLUG DEFAULT_DEVICE_TYPE Hbefore Hp) as Hloop.
  rewrite <- Hports in Hloop. rewrite Hloop. cbn [fst snd].
  assert (∀ v d, tls_wanted (open_ports host) v d = true → 443 ∈ open_ports host)
    as Hopen.
  { intros v d [Hin _]%andb_true_iff. by apply bool_decide_eq_true in Hin. }
  destruct (tls_wanted _ _ _) eqn:Hw.
  2:{ intros [= _ <-]. cbn [role_slug device_type]. split; [done|]. split.
      - by intros d ->.
      - intros ->. split; [done | by left]. }
  apply Hopen in Hw.
  destruct (_regex_fingerprint _ _ _ _) as [[v2 dt2]|e] eqn:Hre; [|done].
  intros [= _ <-]. cbn [role_slug device_type]. split; [done|]. split.
  - intros d -> Hguard. apply fill_default_keeps. by destruct Hguard.
  - intros ->. split; [done|]. cbn [default].
    unfold fill_default. destruct dt2 as [x|]; [|by left].
    destruct (PyStr.nonempty x && _); [|by left].
    right. unfold _regex_fingerprint in Hre.
    destruct (PyStr.blank _); [done|].
    destruct (search_patterns_ret _ _ _ _ _ Hre)
      as [[_ ?]|(rule & pat & v & d & Hin & Hc & Hfound & _ & [= ->])]; [done|].
    by exists rule, pat, v.
Qed.

End Claims.

(** ** The scenarios of the specification, run *)

Import Scenarios Cases.

(** Scenario A: vendor from the OUI table, role and type from port 22. *)
Example scenario_A :
  Plain.run Plain.silent acme_engine acme_host
  = ([], Ret (Classification "Acme" "server" "Linux Host")).
Proof. vm_compute. reflexivity. Qed.

(** Scenario B: no MAC, port 443 open, the certificate names the vendor. *)
Example scenario_B :
  Plain.run mikrotik_net mikrotik_engine https_host
  = ([("10.0.0.8", 443)], Ret (Classification "MikroTik" "unknown" "RouterOS")).
Proof. vm_compute. reflexivity. Qed.

(** Scenario C: nothing known, nothing fetched. *)
Example scenario_C :
  Plain.run mikrotik_net mikrotik_engine
    (HostData "10.0.0.9" (Some "00:11:22:33:44:55") [] (Some "Linux 5.4"))
  = ([], Ret (Classification "Unknown" "unknown" "Unknown")).
Proof. vm_compute. reflexivity. Qed.

(** Scenario D: two rules match, the first one in the list is applied. *)
Example scenario_D :
  Plain.re_search "local" "mikrotik.local " = ReFound ∧
  _regex_fingerprint Plain.re_search two_rules_engine "mikrotik.local" ""
  = Ret (Some "MikroTik", Some "RouterOS").
Proof. split; vm_compute; reflexivity. Qed.

(** A rule that lacks a field is passed over, also when its pattern matches. *)
Example incomplete_rule_skipped :
  Plain.re_search "mikrotik" "mikrotik.local " = ReFound ∧
  _regex_fingerprint Plain.re_search typeless_first_engine "mikrotik.local" ""
  = Ret (Some "Other", Some "Thing").
Proof. split; vm_compute; reflexivity. Qed.

(** An empty vendor name in the OUI table is not taken. *)
Example empty_oui_vendor_skipped :
  oui_dict empty_vendor_engine !! PyStr.upper (PyStr.take 8 "ac:de:48:00:11:22") = Some "" ∧
  Plain.run Plain.silent empty_vendor_engine acme_host
  = ([], Ret (Classification "Unknown" "unknown" "Unknown")).
Proof. split; vm_compute; reflexivity. Qed.

(** ** Instances and counterexamples of the claims *)

(** C1 as stated fails: the prefix AC:DE:48 is mapped to the vendor
    "Unknown", port 443 is open and the certificate matches a rule, and the
    vendor returned is the rule's, not the mapped one. *)
Lemma C1_unknown_vendor_overwritten :
  mac_addr unknown_vendor_host = Some "ac:de:48:00:11:22" ∧
  oui_dict unknown_vendor_engine !! PyStr.upper (PyStr.take 8 "ac:de:48:00:11:22")
  = Some "Unknown" ∧
  Plain.run mikrotik_net unknown_vendor_engine unknown_vendor_host
  = ([("10.0.0.10", 443)], Ret (Classification "MikroTik" "unknown" "RouterOS")) ∧
  vendor (Classification "MikroTik" "unknown" "RouterOS") ≠ "Unknown".
Proof. repeat split; [vm_compute; reflexivity .. | discriminate]. Qed.

Lemma C1_acme_instance :
  returns_with Plain.re_search acme_engine (Plain.run Plain.silent acme_engine acme_host)
    (λ c, vendor c = "Acme").
Proof.
  apply (C1_oui_vendor_kept Plain.re_search Plain.silent acme_engine acme_host
           "ac:de:48:00:11:22" "Acme" []).
  - reflexivity.
  - discriminate.
  - vm_compute. reflexivity.
  - discriminate.
  - left. discriminate.
Defined.

(** C2 as stated fails: port 443 is the first port with an entry, the entry
    maps the device type "Unknown", and the device type returned is the one
    of the rule that the certificate matches. *)
Lemma C2_unknown_type_overwritten :
  open_ports https_host = [443] ∧
  port_roles unknown_type_engine !! pretty 443 = Some unknown_type_entry ∧
  unknown_type_entry !! "device_type" = Some "Unknown" ∧
  Plain.run mikrotik_net unknown_type_engine https_host
  = ([("10.0.0.8", 443)], Ret (Classification "MikroTik" "web" "RouterOS")) ∧
  device_type (Classification "MikroTik" "web" "RouterOS") ≠ "Unknown".
Proof. repeat split; [vm_compute; reflexivity .. | discriminate]. Qed.

Lemma C2_second_port_instance :
  returns_with Plain.re_search several_ports_engine
    (Plain.run Plain.silent several_ports_engine several_ports_host)
    (λ c, role_slug c = "server" ∧
          ("Linux Host" ≠ "Unknown" ∨ 443 ∉ open_ports several_ports_host →
           device_type c = "Linux Host")).
Proof.
  apply (C2_first_port_decides Plain.re_search Plain.silent several_ports_engine
           several_ports_host [80] 22 [8080] linux_entry "server" "Linux Host" []).
  - reflexivity.
  - repeat constructor.
  - vm_compute. reflexivity.
  - vm_compute. reflexivity.
  - vm_compute. reflexivity.
Defined.

(** C4 as stated fails: the second rule is the first whose pattern matches
    the text, but the first rule's pattern is rejected by [re] and the
    matcher raises instead of returning the second rule's pair. *)
Lemma C4_rejected_pattern_before_match :
  fingerprint_patterns broken_first_engine = [broken_rule; mikrotik_rule] ∧
  PyStr.blank ("mikrotik.local" +:+ " " +:+ "") = false ∧
  Plain.re_search "(" "mikrotik.local " = ReError ∧
  Plain.re_search "mikrotik" "mikrotik.local " = ReFound ∧
  _regex_fingerprint Plain.re_search broken_first_engine "mikrotik.local" ""
  = Raise (re_error "(").
Proof. repeat split; vm_compute; reflexivity. Qed.

Lemma C4_two_rules_instance :
  _regex_fingerprint Plain.re_search two_rules_engine "mikrotik.local" ""
  = Ret (Some "MikroTik", Some "RouterOS").
Proof.
  apply (proj1 (C4_first_complete_match Plain.re_search two_rules_engine
                  "mikrotik.local" "" eq_refl)
           [] mikrotik_rule [other_rule] "mikrotik" "MikroTik" "RouterOS").
  - reflexivity.
  - constructor.
  - repeat split; first [discriminate | vm_compute; reflexivity].
  - vm_compute. reflexivity.
Defined.

(** C5 as stated fails: the rule with the pattern "MikroTik" does not match
    the evidence that the rule with the pattern "mikrotik" matches; the two
    patterns differ in letter case only. *)
Lemma C5_capital_pattern_never_matches :
  PyStr.lower "MikroTik" = "mikrotik" ∧
  Plain.run mikrotik_net mikrotik_engine https_host
  = ([("10.0.0.8", 443)], Ret (Classification "MikroTik" "unknown" "RouterOS")) ∧
  Plain.run mikrotik_net capital_engine https_host
  = ([("10.0.0.8", 443)], Ret (Classification "Unknown" "unknown" "Unknown")).
Proof. repeat split; vm_compute; reflexivity. Qed.

Lemma C5_failed_page_instance :
  fingerprint_host Plain.re_search mikrotik_net mikrotik_engine https_host []
  = fingerprint_host Plain.re_search upper_cn_net mikrotik_engine https_host [].
Proof.
  apply (proj1 (C5_evidence_case_ignored Plain.re_search mikrotik_net mikrotik_engine)
           upper_cn_net https_host []).
  - vm_compute. reflexivity.
  - vm_compute. reflexivity.
  - vm_compute. reflexivity.
  - vm_compute. reflexivity.
Defined.

(** C6 as stated fails: with port 443 open, some evidence and one rule whose
    pattern is "(", [fingerprint_host] raises [re.error] to its caller. *)
Lemma C6_rejected_pattern_raises :
  Plain.run switch_net broken_engine https_host
  = ([("10.0.0.8", 443)], Raise (re_error "(")).
Proof. vm_compute. reflexivity. Qed.

Lemma C6_web_tables_instance :
  ∃ lg' c,
    Untyped.fingerprint_host Plain.re_search mikrotik_net web_tables https_host []
    = (lg', Untyped.Returned c) ∧
    (Untyped.port_values_given (Untyped.t_port_roles web_tables) →
     Untyped.c_vendor c ≠ YNull ∧ Untyped.c_role_slug c ≠ YNull ∧
     Untyped.c_device_type c ≠ YNull).
Proof.
  apply (C6_returns_on_well_shaped_store Plain.re_search mikrotik_net web_tables
           https_host []).
  - reflexivity.
  - reflexivity.
  - intros items entry [= <-] He _ _ _.
    apply list_elem_of_singleton in He as ->.
    exists "mikrotik". split; [reflexivity|]. intros text.
    unfold Plain.re_search.
    change (PyStr.all (λ c, negb (Plain.re_special c)) "mikrotik") with true.
    cbv iota. destruct (PyStr.contains _ _); discriminate.
Defined.

(** The store of the instance above, run. *)
Example web_tables_run :
  Untyped.fingerprint_host Plain.re_search mikrotik_net web_tables https_host []
  = ([("10.0.0.8", 443)],
     Untyped.Returned (Untyped.Classified (YStr "MikroTik") (YStr "web") (YStr "RouterOS"))).
Proof. vm_compute. reflexivity. Qed.

(** The other ways in which [fingerprint_host] raises. A mappings file whose
    key [port_roles] has nothing under it gives the engine a null for its
    table, and the port loop raises [TypeError] at the first open port. *)
Example null_port_roles_raises :
  Untyped.load_all None (Some null_roles_file)
  = Untyped.Returned (Untyped.Tables ∅ YNull (YSeq [])) ∧
  Untyped.fingerprint_host Plain.re_search Plain.silent
    (Untyped.Tables ∅ YNull (YSeq [])) ssh_host []
  = ([], Untyped.Raised Untyped.TypeError).
Proof. split; vm_compute; reflexivity. Qed.

(** A rule that is a bare string has no [get]: [AttributeError]. *)
Example text_rule_raises :
  Untyped.load_all None (Some text_rule_file)
  = Untyped.Returned (Untyped.Tables ∅ (YMap []) (YSeq [YStr "mikrotik"])) ∧
  Untyped.fingerprint_host Plain.re_search mikrotik_net
    (Untyped.Tables ∅ (YMap []) (YSeq [YStr "mikrotik"])) https_host []
  = ([("10.0.0.8", 443)], Untyped.Raised Untyped.AttributeError).
Proof. split; vm_compute; reflexivity. Qed.

(** A pattern written as a number is refused by [re.search]: [TypeError]. *)
Example number_pattern_raises :
  ∃ self,
    Untyped.load_all None (Some number_rule_file) = Untyped.Returned self ∧
    Untyped.fingerprint_host Plain.re_search mikrotik_net self https_host []
    = ([("10.0.0.8", 443)], Untyped.Raised Untyped.TypeError).
Proof. eexists. split; vm_compute; reflexivity. Qed.

(** A port written without quotes in the mappings file is a number, and the
    port loop, which looks for the string, does not find it. *)
Example number_key_not_found :
  ∃ self,
    Untyped.load_all None (Some number_key_file) = Untyped.Returned self ∧
    Untyped.fingerprint_host Plain.re_search Plain.silent self ssh_host []
    = ([], Untyped.Returned
             (Untyped.Classified (YStr "Unknown") (YStr "unknown") (YStr "Unknown"))).
Proof. eexists. split; vm_compute; reflexivity. Qed.

(** C7 as stated fails: the entry of port 22 maps the role to the empty
    string, and the role returned is the empty string. *)
Lemma C7_empty_role_returned :
  Plain.run Plain.silent empty_role_engine ssh_host
  = ([], Ret (Classification "Unknown" "" "Linux Host")) ∧
  role_slug (Classification "Unknown" "" "Linux Host") = "".
Proof. split; vm_compute; reflexivity. Qed.

Lemma C7_acme_instance :
  returns_with Plain.re_search acme_engine (Plain.run Plain.silent acme_engine acme_host)
    (λ c, vendor c ≠ "" ∧ role_slug c ≠ "" ∧ device_type c ≠ "").
Proof.
  apply (C7_fields_nonempty Plain.re_search Plain.silent acme_engine acme_host []).
  intros key entry H. unfold acme_engine in H. cbn [port_roles] in H.
  apply lookup_singleton_Some in H as [_ <-].
  split; vm_compute; discriminate.
Defined.

Lemma C8_mikrotik_twice_instance :
  (fingerprint_host Plain.re_search mikrotik_net mikrotik_engine https_host
     [("10.0.0.8", 443)]).2
  = (fingerprint_host Plain.re_search mikrotik_net mikrotik_engine https_host []).2.
Proof.
  apply (C8_second_call_same Plain.re_search mikrotik_net mikrotik_engine https_host
           (Some "MikroTik.local", None) []).
  intros lg. reflexivity.
Defined.

(** C10 as stated fails: the entry of port 443 has a role and no device
    type, the certificate matches a rule, and the device type returned is the
    rule's, not the default. *)
Lemma C10_rule_fills_missing_type :
  open_ports https_host = [443] ∧
  port_roles role_only_engine !! pretty 443 = Some role_only_entry ∧
  role_only_entry !! "device_type" = None ∧
  Plain.run mikrotik_net role_only_engine https_host
  = ([("10.0.0.8", 443)], Ret (Classification "MikroTik" "web" "RouterOS")) ∧
  device_type (Classification "MikroTik" "web" "RouterOS") ≠ DEFAULT_DEVICE_TYPE.
Proof. repeat split; [vm_compute; reflexivity .. | discriminate]. Qed.

Lemma C10_missing_role_instance :
  returns_with Plain.re_search partial_engine
    (Plain.run Plain.silent partial_engine partial_host)
    (λ c,
       role_slug c = default DEFAULT_ROLE_SLUG (partial_entry !! "role") ∧
       (∀ d, partial_entry !! "device_type" = Some d →
             d ≠ "Unknown" ∨ 443 ∉ open_ports partial_host → device_type c = d) ∧
       (partial_entry !! "device_type" = None →
        (443 ∉ open_ports partial_host → device_type c = DEFAULT_DEVICE_TYPE) ∧
        (device_type c = DEFAULT_DEVICE_TYPE ∨
         ∃ rule pat v,
           rule ∈ fingerprint_patterns partial_engine ∧
           complete_rule rule pat v (device_type c) ∧
           Plain.re_search pat
             (lowered (Plain.silent [] (ip_addr partial_host) 443).1 +:+ " " +:+
              lowered (Plain.silent [] (ip_addr partial_host) 443).2) = ReFound))).
Proof.
  apply (C10_partial_entry_applied Plain.re_search Plain.silent partial_engine
           partial_host [] 22 [80] partial_entry []).
  - reflexivity.
  - constructor.
  - vm_compute. reflexivity.
Defined.

(** The run of that instance: the role is left at its default, the device
    type is the entry's, and the entry of port 80 is not used. *)
Example partial_entry_run :
  Plain.run Plain.silent partial_engine partial_host
  = ([], Ret (Classification "Unknown" "unknown" "Linux Host")).
Proof. vm_compute. reflexivity. Qed.

(** * Further properties of the engine *)

Lemma upper_upper_ascii c : PyStr.upper_ascii (PyStr.upper_ascii c) = PyStr.upper_ascii c.
Proof. destruct c as [[] [] [] [] [] [] [] []]; reflexivity. Qed.

Lemma upper_idemp s : PyStr.upper (PyStr.upper s) = PyStr.upper s.
Proof.
  induction s as [|c s IH]; [done|].
  cbn. fold (PyStr.upper s) (PyStr.upper (PyStr.upper s)).
  by rewrite upper_upper_ascii, IH.
Qed.

Lemma length_map f s : String.length (PyStr.map f s) = String.length s.
Proof. induction s as [|c s IH]; simpl; [done | by rewrite IH]. Qed.

Lemma length_take n s : (String.length (PyStr.take n s) ≤ n)%nat.
Proof.
  unfold PyStr.take. revert s.
  induction n as [|n IH]; intros [|c s]; simpl; try lia.
  specialize (IH s). lia.
Qed.

(** The key that the OUI step looks up is in upper case and has at most
    eight characters. *)
Lemma oui_prefix_shape m :
  let prefix := PyStr.upper (PyStr.take 8 m) in
  PyStr.upper prefix = prefix ∧ (String.length prefix ≤ 8)%nat.
Proof.
  cbv zeta. split; [apply upper_idemp|].
  unfold PyStr.upper. rewrite length_map. apply length_take.
Qed.

Section More.

Variable re_search : string → string → re_result.
Variable net : fetch_log → string → Z → raw_evidence.

Lemma port_lookup_agree roles ports ports' rs dt :
  ports ≡ₚ ports' →
  (∀ p q e1 e2, p ∈ ports → q ∈ ports →
     roles !! pretty p = Some e1 → roles !! pretty q = Some e2 → e1 = e2) →
  port_lookup roles ports' rs dt = port_lookup roles ports rs dt.
Proof.
  intros Hperm Hagree.
  destruct (port_lookup_cases roles ports)
    as [Hnone | (before & p & after & e & Hports & Hb & Hp)];
  destruct (port_lookup_cases roles ports')
    as [Hnone' | (before' & p' & after' & e' & Hports' & Hb' & Hp')].
  - by rewrite !port_lookup_none.
  - assert (p' ∈ ports) as Hin.
    { rewrite Hperm, Hports'. apply elem_of_app. right. apply list_elem_of_here. }
    unfold no_port_rule in Hnone. rewrite Forall_forall in Hnone.
    specialize (Hnone p' Hin). congruence.
  - assert (p ∈ ports') as Hin.
    { rewrite <- Hperm, Hports. apply elem_of_app. right. apply list_elem_of_here. }
    unfold no_port_rule in Hnone'. rewrite Forall_forall in Hnone'.
    specialize (Hnone' p Hin). congruence.
  - assert (p ∈ ports) as Hin
      by (rewrite Hports; apply elem_of_app; right; apply list_elem_of_here).
    assert (p' ∈ ports) as Hin'
      by (rewrite Hperm, Hports'; apply elem_of_app; right; apply list_elem_of_here).
    rewrite (Hagree p' p e' e Hin' Hin Hp' Hp) in Hp'.
    rewrite Hports, Hports'.
    by rewrite (port_lookup_first roles before p after e),
               (port_lookup_first roles before' p' after' e).
Qed.

(** X1. A host without a MAC address, or with one whose prefix is not in the
    OUI table, none of whose open ports has an entry and whose port 443 is
    not open, gets the three defaults, and nothing is fetched. *)
Theorem X1_nothing_known_all_default self host lg :
  (∀ m, mac_addr host = Some m →
        oui_dict self !! PyStr.upper (PyStr.take 8 m) = None) →
  no_port_rule (port_roles self) (open_ports host) →
  443 ∉ open_ports host →
  fingerprint_host re_search net self host lg
  = (lg, Ret (Classification "Unknown" "unknown" "Unknown")).
Proof.
  intros Hmac Hports H443. rewrite fingerprint_host_run. cbv zeta.
  rewrite port_lookup_none by done. cbn [fst snd].
  assert (oui_lookup self (mac_addr host) DEFAULT_VENDOR = DEFAULT_VENDOR) as ->.
  { unfold oui_lookup. destruct (mac_addr host) as [m|]; [|done].
    rewrite (Hmac m eq_refl). by destruct (PyStr.nonempty m). }
  unfold tls_wanted. by rewrite bool_decide_eq_false_2.
Qed.

(** X2. When both parts of the fetch fail, the matcher is not run: the
    result is what the OUI and the port steps left, whatever the rules are,
    also rules whose pattern [re] rejects. *)
Theorem X2_failed_fetch_keeps_fields self host lg :
  net lg (ip_addr host) 443 = (None, None) →
  (fingerprint_host re_search net self host lg).2
  = Ret (Classification
           (oui_lookup self (mac_addr host) DEFAULT_VENDOR)
           (port_lookup (port_roles self) (open_ports host)
              DEFAULT_ROLE_SLUG DEFAULT_DEVICE_TYPE).1
           (port_lookup (port_roles self) (open_ports host)
              DEFAULT_ROLE_SLUG DEFAULT_DEVICE_TYPE).2).
Proof.
  intros Hnet. rewrite fingerprint_host_run. cbv zeta.
  destruct (tls_wanted _ _ _); [|done].
  rewrite Hnet. cbn [fst snd lowered]. by unfold _regex_fingerprint.
Qed.

(** X3. For a host whose MAC address is ASCII text, a key of the OUI table
    that holds a lower-case letter, or that has more than eight characters,
    is never found: the engine behaves as if the key were not in the
    table. *)
Theorem X3_oui_key_never_found self host lg k :
  (∀ m, mac_addr host = Some m → is_ascii_text m = true) →
  PyStr.upper k ≠ k ∨ (8 < String.length k)%nat →
  fingerprint_host re_search net
    (Engine (delete k (oui_dict self)) (port_roles self) (fingerprint_patterns self))
    host lg
  = fingerprint_host re_search net self host lg.
Proof.
  intros _ Hk. rewrite !fingerprint_host_run. cbv zeta. cbn [port_roles].
  assert (∀ mac v0,
    oui_lookup (Engine (delete k (oui_dict self)) (port_roles self)
                  (fingerprint_patterns self)) mac v0
    = oui_lookup self mac v0) as ->; [|done].
  intros [m|] v0; [|done]. unfold oui_lookup. cbn [oui_dict].
  destruct (PyStr.nonempty m); [|done].
  rewrite lookup_delete_ne; [done|].
  intros ->. destruct (oui_prefix_shape m) as [Hup Hlen].
  destruct Hk as [Hk|Hk]; [done | lia].
Qed.

(** X4. The order of the open ports does not matter when the open ports
    that have an entry in [port_roles] all have the same entry, for instance
    when at most one of them has an entry. *)
Theorem X4_port_order_irrelevant self ip mac ports ports' os lg :
  ports ≡ₚ ports' →
  (∀ p q e1 e2, p ∈ ports → q ∈ ports →
     port_roles self !! pretty p = Some e1 → port_roles self !! pretty q = Some e2 →
     e1 = e2) →
  fingerprint_host re_search net self (HostData ip mac ports' os) lg
  = fingerprint_host re_search net self (HostData ip mac ports os) lg.
Proof.
  intros Hperm Hagree. rewrite !fingerprint_host_run. cbv zeta.
  cbn [open_ports mac_addr ip_addr].
  rewrite (port_lookup_agree _ ports ports') by done.
  assert (∀ v d, tls_wanted ports' v d = tls_wanted ports v d) as ->; [|done].
  intros v d. unfold tls_wanted. f_equal. apply bool_decide_ext. by rewrite Hperm.
Qed.

End More.

(** * Properties of the code around the engine *)

(** ** Splitting and stripping *)

Lemma has_char_cons c c' s :
  PyText.has_char c (String c' s) ↔ c = c' ∨ PyText.has_char c s.
Proof. unfold PyText.has_char. simpl. apply elem_of_cons. Qed.

Lemma has_char_empty c : ¬ PyText.has_char c "".
Proof. unfold PyText.has_char. simpl. apply not_elem_of_nil. Qed.

Lemma has_char_app c a b :
  PyText.has_char c (a +:+ b) ↔ PyText.has_char c a ∨ PyText.has_char c b.
Proof.
  induction a as [|c' a IH].
  - change ("" +:+ b) with b. split; [by right | intros [[]%has_char_empty|]; done].
  - rewrite append_cons, !has_char_cons, IH. tauto.
Qed.

Lemma split_on_cons sep s : ∃ part parts, PyText.split_on sep s = part :: parts.
Proof.
  induction s as [|c s (part & parts & IH)]; simpl; [by eexists _, _|].
  case_bool_decide; [by eexists _, _|]. rewrite IH. by eexists _, _.
Qed.

(** No part of a split holds the separator. *)
Lemma split_on_no_sep sep s part :
  part ∈ PyText.split_on sep s → ¬ PyText.has_char sep part.
Proof.
  revert part. induction s as [|c s IH]; intros part; simpl.
  - intros ->%list_elem_of_singleton. apply has_char_empty.
  - case_bool_decide as Hc.
    + intros [->|Hin]%elem_of_cons; [apply has_char_empty | by apply IH].
    + destruct (split_on_cons sep s) as (p & ps & Heq). rewrite Heq in IH |- *.
      intros [->|Hin]%elem_of_cons.
      * rewrite has_char_cons. intros [->|Hp]; [done|].
        apply (IH p); [apply list_elem_of_here | done].
      * apply IH. by apply elem_of_cons; right.
Qed.

Lemma join_cons sep a b l :
  PyText.join sep (a :: b :: l) = a +:+ String sep (PyText.join sep (b :: l)).
Proof. reflexivity. Qed.

(** Joining the parts of a split gives the text back. *)
Lemma join_split_on sep s : PyText.join sep (PyText.split_on sep s) = s.
Proof.
  induction s as [|c s IH]; [done|].
  destruct (split_on_cons sep s) as (p & ps & Heq).
  cbn [PyText.split_on]. rewrite Heq in IH |- *.
  case_bool_decide as Hc.
  - subst c. by rewrite join_cons, IH.
  - destruct ps as [|p' ps]; [by simpl in *; rewrite IH|].
    rewrite join_cons in IH |- *. by rewrite append_cons, IH.
Qed.

Lemma split_on_free sep s : ¬ PyText.has_char sep s → PyText.split_on sep s = [s].
Proof.
  induction s as [|c s IH]; [done|]. rewrite has_char_cons. intros Hno. simpl.
  rewrite bool_decide_eq_false_2 by (intros ->; apply Hno; by left).
  rewrite IH; [done|]. intros ?. apply Hno. by right.
Qed.

Lemma split_on_app sep a b :
  ¬ PyText.has_char sep a →
  PyText.split_on sep (a +:+ String sep b) = a :: PyText.split_on sep b.
Proof.
  induction a as [|c a IH]; intros Hno.
  - change ("" +:+ String sep b) with (String sep b). simpl.
    by rewrite bool_decide_eq_true_2.
  - rewrite has_char_cons in Hno. rewrite append_cons. simpl.
    rewrite bool_decide_eq_false_2 by (intros ->; apply Hno; by left).
    rewrite IH; [done|]. intros ?. apply Hno. by right.
Qed.

Lemma lstrip_chars c s : PyText.has_char c (PyText.lstrip s) → PyText.has_char c s.
Proof.
  induction s as [|c' s IH]; simpl; [done|].
  destruct (PyStr.is_space c'); [|done]. intros ?%IH. apply has_char_cons. by right.
Qed.

Lemma rstrip_chars c s : PyText.has_char c (PyText.rstrip s) → PyText.has_char c s.
Proof.
  induction s as [|c' s IH]; simpl; [done|].
  destruct (_ && _); [by intros []%has_char_empty|].
  rewrite !has_char_cons. tauto.
Qed.

(** Stripping removes characters only. *)
Lemma strip_chars c s : PyText.has_char c (PyText.strip s) → PyText.has_char c s.
Proof. unfold PyText.strip. by intros ?%rstrip_chars%lstrip_chars. Qed.

Lemma lstrip_first s c r : PyText.lstrip s = String c r → PyStr.is_space c = false.
Proof.
  induction s as [|c' s IH]; simpl; [done|].
  destruct (PyStr.is_space c') eqn:Hc; [done|]. by intros [= <- _].
Qed.

Lemma rstrip_first s c r :
  PyText.rstrip s = String c r → ∃ r', s = String c r'.
Proof.
  destruct s as [|c' s]; simpl; [done|].
  destruct (_ && _); [done|]. intros [= <- _]. by eexists.
Qed.

(** A stripped text does not start with whitespace. *)
Lemma strip_first s c r : PyText.strip s = String c r → PyStr.is_space c = false.
Proof.
  unfold PyText.strip. intros (r' & Hl)%rstrip_first. by apply lstrip_first in Hl.
Qed.

Lemma rstrip_idemp s : PyText.rstrip (PyText.rstrip s) = PyText.rstrip s.
Proof.
  induction s as [|c s IH]; simpl; [done|].
  destruct (PyStr.is_space c && negb (PyStr.nonempty (PyText.rstrip s))) eqn:Hc; [done|].
  simpl. by rewrite IH, Hc.
Qed.

Lemma lstrip_nonspace c s :
  PyStr.is_space c = false → PyText.lstrip (String c s) = String c s.
Proof. intros Hc. simpl. by rewrite Hc. Qed.

(** Stripping twice is stripping once: a stripped text has no whitespace at
    either end. *)
Lemma strip_idemp s : PyText.strip (PyText.strip s) = PyText.strip s.
Proof.
  destruct (PyText.strip s) as [|c r] eqn:Hs; [done|].
  pose proof (strip_first _ _ _ Hs) as Hc.
  unfold PyText.strip at 1. rewrite lstrip_nonspace by done.
  rewrite <- Hs. unfold PyText.strip. apply rstrip_idemp.
Qed.

Lemma rstrip_app a b :
  PyText.rstrip b ≠ "" → PyText.rstrip (a +:+ b) = a +:+ PyText.rstrip b.
Proof.
  intros Hb. induction a as [|c a IH]; [done|].
  rewrite !append_cons. simpl. rewrite IH.
  destruct (a +:+ PyText.rstrip b) eqn:Heq.
  - destruct a; [|by rewrite append_cons in Heq]. by destruct Hb.
  - simpl. by rewrite andb_false_r.
Qed.

Lemma rstrip_blank s : PyText.rstrip s = "" ↔ PyStr.blank s = true.
Proof.
  unfold PyStr.blank. induction s as [|c s IH]; simpl; [done|].
  destruct (PyStr.is_space c); simpl.
  - destruct (PyText.rstrip s) eqn:Hr; simpl.
    + split; [intros _; by apply IH | done].
    + split; [done | intros Hall%IH; done].
  - split; done.
Qed.

Lemma lstrip_blank s : PyStr.blank s = true → PyText.lstrip s = "".
Proof.
  unfold PyStr.blank. induction s as [|c s IH]; simpl; [done|].
  destruct (PyStr.is_space c); simpl; [done | done].
Qed.

Lemma lstrip_rstrip s :
  PyText.lstrip (PyText.rstrip s) = PyText.rstrip (PyText.lstrip s).
Proof.
  induction s as [|c s IH]; [done|].
  cbn [PyText.lstrip PyText.rstrip].
  destruct (PyStr.is_space c) eqn:Hc; cbn [andb].
  - destruct (PyText.rstrip s) as [|c' r] eqn:Hr; cbn [PyStr.nonempty negb].
    + apply rstrip_blank in Hr. by rewrite (lstrip_blank s Hr).
    + cbn [PyText.lstrip]. by rewrite Hc.
  - cbn [PyText.lstrip PyText.rstrip]. by rewrite Hc.
Qed.

Lemma strip_rstrip s : PyText.strip (PyText.rstrip s) = PyText.strip s.
Proof. unfold PyText.strip. by rewrite lstrip_rstrip, rstrip_idemp. Qed.

Lemma startswith_hash c r :
  PyText.startswith "#" (String c r) = false ↔ c ≠ "#"%char.
Proof.
  unfold PyText.startswith.
  change (String.prefix "#" (String c r))
    with (if Ascii.ascii_dec "#" c then String.prefix "" r else false).
  destruct (Ascii.ascii_dec "#" c) as [<-|Hne].
  - assert (String.prefix "" r = true) as -> by (by destruct r).
    split; [done | by intros []].
  - split; [by intros _ -> | done].
Qed.

Lemma split_on_first sep c r :
  c ≠ sep →
  ∃ p ps, PyText.split_on sep (String c r) = String c p :: ps.
Proof.
  intros Hne. destruct (split_on_cons sep r) as (p & ps & Heq).
  exists p, ps. cbn [PyText.split_on]. by rewrite bool_decide_eq_false_2, Heq.
Qed.

Lemma tab_is_space : PyStr.is_space PyText.tab = true.
Proof. reflexivity. Qed.

(** ** [ConfigLoader] *)

(** A line that is blank, a comment, or without a tab changes nothing. *)
Lemma oui_line_skip d line :
  PyText.strip line = "" ∨ PyText.startswith "#" (PyText.strip line) = true ∨
  ¬ PyText.has_char PyText.tab (PyText.strip line) →
  oui_line d line = d.
Proof.
  unfold oui_line. cbv zeta. intros [-> | [-> | Hno]]; [done | by rewrite orb_true_r |].
  destruct (_ || _); [done|]. by rewrite split_on_free.
Qed.

(** A line either changes nothing or stores one entry that is well formed. *)
Lemma oui_line_cases d line :
  oui_line d line = d ∨
  ∃ k v, oui_line d line = <[k := v]> d ∧ oui_entry_ok k v.
Proof.
  unfold oui_line. cbv zeta.
  destruct (PyText.strip line) as [|c r] eqn:Hs; [by left|].
  cbn [PyStr.nonempty negb orb].
  destruct (PyText.startswith "#" (String c r)) eqn:Hhash; [by left|].
  apply startswith_hash in Hhash.
  pose proof (strip_first _ _ _ Hs) as Hc.
  assert (c ≠ PyText.tab) as Hct by (intros ->; by rewrite tab_is_space in Hc).
  destruct (split_on_first PyText.tab c r Hct) as (p & ps & Heq).
  pose proof (split_on_no_sep PyText.tab (String c r)) as Hparts.
  rewrite Heq in Hparts |- *.
  assert (∀ vendor, vendor ∈ ps →
            oui_entry_ok (String c p) (PyText.strip vendor)) as Hok.
  { intros vendor Hin. repeat split.
    - by exists c, p.
    - apply Hparts, list_elem_of_here.
    - intros ?%strip_chars. by apply (Hparts vendor); [apply elem_of_cons; right|].
    - apply strip_idemp. }
  destruct ps as [|p1 [|p2 ps]]; [by left | |]; right; eexists _, _; (split; [done|]);
    apply Hok; set_solver.
Qed.

Lemma append_assoc (a b c : string) : (a +:+ b) +:+ c = a +:+ (b +:+ c).
Proof. induction a as [|x a IH]; [done|]. by rewrite !append_cons, IH. Qed.

Lemma rstrip_app_tab a v :
  PyStr.blank v = false →
  PyText.rstrip (a +:+ String PyText.tab v) = a +:+ String PyText.tab (PyText.rstrip v).
Proof.
  intros Hv.
  assert (PyText.rstrip v ≠ "") as Hr.
  { intros ?%rstrip_blank. congruence. }
  assert (PyText.rstrip (String PyText.tab v) = String PyText.tab (PyText.rstrip v)) as Htab.
  { cbn [PyText.rstrip]. destruct (PyText.rstrip v); [done|].
    by rewrite andb_false_r. }
  rewrite rstrip_app; by rewrite Htab.
Qed.

Lemma blank_lstrip v : PyStr.blank (PyText.lstrip v) = PyStr.blank v.
Proof.
  unfold PyStr.blank. induction v as [|c v IH]; [done|].
  cbn [PyText.lstrip PyStr.all]. destruct (PyStr.is_space c) eqn:Hc; [done|].
  cbn [PyStr.all]. by rewrite Hc.
Qed.

Lemma strip_not_blank v : PyStr.blank v = false → PyText.strip v ≠ "".
Proof.
  intros Hv Hs. unfold PyText.strip in Hs. apply rstrip_blank in Hs.
  rewrite blank_lstrip in Hs. congruence.
Qed.

(** A line with two fields stores its first field, as it is, with its
    stripped second field. *)
Lemma oui_line_two_fields d c r v :
  PyStr.is_space c = false → c ≠ "#"%char →
  ¬ PyText.has_char PyText.tab (String c r) → ¬ PyText.has_char PyText.tab v →
  PyStr.blank v = false →
  oui_line d (String c r +:+ String PyText.tab v) = <[String c r := PyText.strip v]> d.
Proof.
  intros Hc Hhash Hk Hv Hblank. unfold oui_line. cbv zeta.
  assert (PyText.strip (String c r +:+ String PyText.tab v)
          = String c r +:+ String PyText.tab (PyText.rstrip v)) as ->.
  { unfold PyText.strip. rewrite append_cons, lstrip_nonspace by done.
    rewrite <- append_cons. by apply rstrip_app_tab. }
  rewrite append_cons at 1 2. cbn [PyStr.nonempty negb orb].
  rewrite (proj2 (startswith_hash c _) Hhash).
  rewrite split_on_app by done.
  rewrite split_on_free by (by intros ?%rstrip_chars).
  by rewrite strip_rstrip.
Qed.

(** A line with three fields stores its first field with its stripped third
    field. *)
Lemma oui_line_three_fields d c r mid v :
  PyStr.is_space c = false → c ≠ "#"%char →
  ¬ PyText.has_char PyText.tab (String c r) → ¬ PyText.has_char PyText.tab mid →
  ¬ PyText.has_char PyText.tab v → PyStr.blank v = false →
  oui_line d (String c r +:+ String PyText.tab (mid +:+ String PyText.tab v))
  = <[String c r := PyText.strip v]> d.
Proof.
  intros Hc Hhash Hk Hmid Hv Hblank. unfold oui_line. cbv zeta.
  assert (PyText.strip (String c r +:+ String PyText.tab (mid +:+ String PyText.tab v))
          = String c r +:+ String PyText.tab (mid +:+ String PyText.tab (PyText.rstrip v)))
    as ->.
  { unfold PyText.strip. rewrite append_cons, lstrip_nonspace by done.
    rewrite <- append_cons.
    change (String c r +:+ String PyText.tab (mid +:+ String PyText.tab v))
      with (String c r +:+ (String PyText.tab mid +:+ String PyText.tab v)).
    rewrite <- append_assoc, rstrip_app_tab by done.
    by rewrite append_assoc. }
  rewrite append_cons at 1 2. cbn [PyStr.nonempty negb orb].
  rewrite (proj2 (startswith_hash c _) Hhash).
  rewrite !split_on_app by done.
  rewrite split_on_free by (by intros ?%rstrip_chars).
  by rewrite strip_rstrip.
Qed.

Lemma load_oui_snoc lines line d :
  load_oui (Some (lines ++ [line])) d = oui_line (load_oui (Some lines) d) line.
Proof. unfold load_oui. by rewrite foldl_app. Qed.

Lemma last_line_lookup lines c r vendor_field d :
  PyStr.is_space c = false → c ≠ "#"%char →
  ¬ PyText.has_char PyText.tab (String c r) →
  ¬ PyText.has_char PyText.tab vendor_field →
  PyStr.blank vendor_field = false →
  load_oui (Some (lines ++ [String c r +:+ String PyText.tab vendor_field])) d
    !! String c r
  = Some (PyText.strip vendor_field).
Proof.
  intros. rewrite load_oui_snoc, oui_line_two_fields by done.
  apply lookup_insert_eq.
Qed.

Lemma load_all_oui_dict oui_file mappings_file :
  oui_dict (load_all oui_file mappings_file) = load_oui oui_file ∅.
Proof. unfold load_all, load_mappings. by destruct mappings_file. Qed.

Lemma oui_lookup_source self mac :
  oui_lookup self mac DEFAULT_VENDOR = "Unknown" ∨
  ∃ k, oui_dict self !! k = Some (oui_lookup self mac DEFAULT_VENDOR).
Proof.
  unfold oui_lookup. destruct mac as [m|]; [|by left].
  destruct (PyStr.nonempty m); [|by left].
  destruct (oui_dict self !! _) as [v|] eqn:Hv; [|by left].
  destruct (PyStr.nonempty v); [|by left]. right. by eexists.
Qed.

Lemma port_lookup_source roles ports :
  let rd := port_lookup roles ports DEFAULT_ROLE_SLUG DEFAULT_DEVICE_TYPE in
  (rd.1 = "unknown" ∨
   ∃ q e, q ∈ ports ∧ roles !! pretty q = Some e ∧ e !! "role" = Some rd.1) ∧
  (rd.2 = "Unknown" ∨
   ∃ q e, q ∈ ports ∧ roles !! pretty q = Some e ∧ e !! "device_type" = Some rd.2).
Proof.
  cbv zeta.
  destruct (port_lookup_cases roles ports)
    as [Hnone | (before & p & after & e & -> & Hb & Hp)].
  - rewrite port_lookup_none by done. split; by left.
  - rewrite (port_lookup_first roles before p after e) by done. cbn [fst snd].
    assert (p ∈ before ++ p :: after) as Hin
      by (apply elem_of_app; right; apply list_elem_of_here).
    split.
    + destruct (e !! "role") as [r|] eqn:Hr; [right; by exists p, e | by left].
    + destruct (e !! "device_type") as [d|] eqn:Hd; [right; by exists p, e | by left].
Qed.

Lemma fill_default_source found current default_value :
  fill_default found current default_value = current ∨
  ∃ x, found = Some x ∧ fill_default found current default_value = x.
Proof.
  unfold fill_default. destruct found as [x|]; [|by left].
  destruct (_ && _); [right; by exists x | by left].
Qed.

Lemma search_patterns_app re_search rules rules' text :
  search_patterns re_search (rules ++ rules') text =
  match search_patterns re_search rules text with
  | Ret (None, None) => search_patterns re_search rules' text
  | r => r
  end.
Proof.
  induction rules as [|entry rules IH].
  - simpl. by destruct (search_patterns re_search rules' text) as [[[?|] [?|]]|].
  - rewrite <- app_comm_cons.
    destruct (complete_rule_cases entry) as [(p & v & d & Hc) | Hno].
    + rewrite !(search_patterns_complete _ _ _ _ _ _ _ Hc).
      by destruct (re_search p text).
    + by rewrite !search_patterns_incomplete.
Qed.

(** ** More on the engine, and the loader *)

Section Around.

Variable re_search : string → string → re_result.
Variable net : fetch_log → string → Z → raw_evidence.

(** X5. The engine invents nothing: in every classification returned, the
    vendor is "Unknown", a value of the OUI table, or the vendor of a rule
    with its three fields; the role is "unknown" or the role of the entry of
    an open port; the device type is "Unknown", the device type of the entry
    of an open port, or the device type of a rule with its three fields. *)
Theorem X5_values_come_from_tables self host lg lg' c :
  fingerprint_host re_search net self host lg = (lg', Ret c) →
  (vendor c = "Unknown" ∨
   (∃ k, oui_dict self !! k = Some (vendor c)) ∨
   (∃ entry p d, entry ∈ fingerprint_patterns self ∧
                 complete_rule entry p (vendor c) d)) ∧
  (role_slug c = "unknown" ∨
   ∃ q entry, q ∈ open_ports host ∧ port_roles self !! pretty q = Some entry ∧
              entry !! "role" = Some (role_slug c)) ∧
  (device_type c = "Unknown" ∨
   (∃ q entry, q ∈ open_ports host ∧ port_roles self !! pretty q = Some entry ∧
               entry !! "device_type" = Some (device_type c)) ∨
   (∃ entry p v, entry ∈ fingerprint_patterns self ∧
                 complete_rule entry p v (device_type c))).
Proof.
  rewrite fingerprint_host_run. cbv zeta.
  pose proof (oui_lookup_source self (mac_addr host)) as Hv.
  destruct (port_lookup_source (port_roles self) (open_ports host)) as [Hr Hd].
  destruct (tls_wanted _ _ _).
  2:{ intros [= _ <-]. cbn [vendor role_slug device_type]. split; [|split]; tauto. }
  destruct (_regex_fingerprint _ _ _ _) as [[v2 dt2]|e] eqn:Hre; [|done].
  intros [= _ <-]. cbn [vendor role_slug device_type].
  assert ((v2 = None ∧ dt2 = None) ∨
          ∃ entry p v d, entry ∈ fingerprint_patterns self ∧ complete_rule entry p v d ∧
                         v2 = Some v ∧ dt2 = Some d) as Hrule.
  { unfold _regex_fingerprint in Hre.
    destruct (PyStr.blank _); [injection Hre as <- <-; by left|].
    destruct (search_patterns_ret _ _ _ _ _ Hre)
      as [?|(entry & p & v & d & ? & ? & _ & ? & ?)]; [by left|].
    right. by exists entry, p, v, d. }
  destruct Hrule as [[-> ->]|(entry & p & v & d & Hin & Hc & -> & ->)].
  { cbn [fill_default]. split; [|split]; tauto. }
  split; [|split; [done|]].
  - destruct (fill_default_source (Some v)
                (oui_lookup self (mac_addr host) DEFAULT_VENDOR) DEFAULT_VENDOR)
      as [->|(x & [= <-] & ->)]; [tauto|].
    right. right. by exists entry, p, d.
  - destruct (fill_default_source (Some d)
                (port_lookup (port_roles self) (open_ports host)
                   DEFAULT_ROLE_SLUG DEFAULT_DEVICE_TYPE).2
                DEFAULT_DEVICE_TYPE) as [->|(x & [= <-] & ->)]; [tauto|].
    right. right. by exists entry, p, v.
Qed.

(** X6. Rule lists compose: the matcher run on two lists put end to end
    gives what the first list gives, unless the first list gives no match, in
    which case it gives what the second list gives. Rules after a match are
    not tried, also when [re] would reject their pattern. *)
Theorem X6_rule_lists_compose oui roles rules rules' cert_cn page_text :
  _regex_fingerprint re_search (Engine oui roles (rules ++ rules')) cert_cn page_text =
  match _regex_fingerprint re_search (Engine oui roles rules) cert_cn page_text with
  | Ret (None, None) =>
      _regex_fingerprint re_search (Engine oui roles rules') cert_cn page_text
  | r => r
  end.
Proof.
  unfold _regex_fingerprint. cbn [fingerprint_patterns].
  destruct (PyStr.blank _); [done|]. apply search_patterns_app.
Qed.

(** X7. A line of the OUI file that is blank, that starts with the comment
    sign after its leading whitespace, or that has no tab once stripped, is
    ignored wherever it stands in the file. *)
Theorem X7_oui_line_ignored before line after oui_dict :
  PyText.strip line = "" ∨ PyText.startswith "#" (PyText.strip line) = true ∨
  ¬ PyText.has_char PyText.tab (PyText.strip line) →
  load_oui (Some (before ++ line :: after)) oui_dict
  = load_oui (Some (before ++ after)) oui_dict.
Proof.
  intros Hskip. unfold load_oui. rewrite !foldl_app. cbn [foldl].
  by rewrite oui_line_skip.
Qed.

(** X8. Every entry that [load_oui] puts into an empty table has a key that
    is not empty, starts with neither whitespace nor the comment sign and
    holds no tab, and a vendor that holds no tab and has no whitespace at
    either end. *)
Theorem X8_oui_entries_well_formed lines k v :
  load_oui (Some lines) ∅ !! k = Some v → oui_entry_ok k v.
Proof.
  revert k v. induction lines as [|line lines IH] using rev_ind; intros k v.
  - cbn [load_oui foldl]. by rewrite lookup_empty.
  - rewrite load_oui_snoc.
    destruct (oui_line_cases (load_oui (Some lines) ∅) line)
      as [-> | (k' & v' & -> & Hok)]; [apply IH|].
    destruct (decide (k' = k)) as [->|Hne].
    + rewrite lookup_insert_eq. by intros [= <-].
    + rewrite lookup_insert_ne by done. apply IH.
Qed.

(** X9. The last line of the file wins: after a line made of a prefix, a
    tab and a vendor, the table maps the prefix, as written, to the stripped
    vendor, whatever the lines before it stored. The prefix starts with
    neither whitespace nor the comment sign; neither field holds a tab, and
    the vendor is not blank. *)
Theorem X9_oui_last_line_wins lines c r vendor_field oui_dict :
  PyStr.is_space c = false → c ≠ "#"%char →
  ¬ PyText.has_char PyText.tab (String c r) →
  ¬ PyText.has_char PyText.tab vendor_field →
  PyStr.blank vendor_field = false →
  load_oui (Some (lines ++ [String c r +:+ String PyText.tab vendor_field])) oui_dict
    !! String c r
  = Some (PyText.strip vendor_field).
Proof.
  intros Hc Hhash Hk Hv Hblank.
  rewrite load_oui_snoc, oui_line_two_fields by done.
  apply lookup_insert_eq.
Qed.

(** X10. Of a line with three fields the third is the vendor; the second is
    not used. *)
Theorem X10_oui_third_field_is_vendor lines c r second third oui_dict :
  PyStr.is_space c = false → c ≠ "#"%char →
  ¬ PyText.has_char PyText.tab (String c r) →
  ¬ PyText.has_char PyText.tab second → ¬ PyText.has_char PyText.tab third →
  PyStr.blank third = false →
  load_oui
    (Some (lines ++ [String c r +:+ String PyText.tab (second +:+ String PyText.tab third)]))
    oui_dict !! String c r
  = Some (PyText.strip third).
Proof.
  intros. rewrite load_oui_snoc, oui_line_three_fields by done.
  apply lookup_insert_eq.
Qed.

(** X11. From the file to the classification: when the last line of the OUI
    file is a prefix, a tab and a vendor, in ASCII, every host whose MAC
    address is ASCII text with that prefix once upper-cased has that vendor,
    stripped, in the record that [fingerprint_host] returns, whatever
    [yaml.safe_load] made of the mappings file, unless the stripped vendor
    is the text "Unknown". *)
Theorem X11_oui_file_line_names_vendor
    lines c r vendor_field mappings_file self host m lg lg' cl :
  PyStr.is_space c = false → c ≠ "#"%char →
  ¬ PyText.has_char PyText.tab (String c r) →
  ¬ PyText.has_char PyText.tab vendor_field →
  PyStr.blank vendor_field = false →
  is_ascii_text (String c r +:+ String PyText.tab vendor_field) = true →
  PyText.strip vendor_field ≠ "Unknown" →
  mac_addr host = Some m → m ≠ "" → is_ascii_text m = true →
  PyStr.upper (PyStr.take 8 m) = String c r →
  Untyped.load_all (Some (lines ++ [String c r +:+ String PyText.tab vendor_field]))
    mappings_file = Untyped.Returned self →
  Untyped.fingerprint_host re_search net self host lg = (lg', Untyped.Returned cl) →
  Untyped.c_vendor cl = YStr (PyText.strip vendor_field).
Proof.
  intros Hc Hhash Hk Hv Hblank _ Hunknown Hmac Hm _ Hprefix Hload Hrun.
  eapply untyped_vendor_kept; [| exact Hunknown | exact Hrun].
  rewrite Hmac. apply untyped_oui_lookup_hit; [done | | by apply strip_not_blank].
  rewrite (untyped_load_all_oui_dict _ _ _ Hload), Hprefix. by apply last_line_lookup.
Qed.

(** X12. Without a mappings file the role and the device type of every host
    are the defaults and the vendor is what the OUI step gives; the evidence
    of each host with port 443 open is fetched all the same. *)
Theorem X12_no_mappings_file oui_file host lg :
  let self := load_all oui_file None in
  fingerprint_host re_search net self host lg =
  (if bool_decide (443 ∈ open_ports host) then lg ++ [(ip_addr host, 443)] else lg,
   Ret (Classification (oui_lookup self (mac_addr host) DEFAULT_VENDOR)
          "unknown" "Unknown")).
Proof.
  cbv zeta. rewrite fingerprint_host_run. cbv zeta.
  assert (port_roles (load_all oui_file None) = ∅) as Hroles by done.
  assert (fingerprint_patterns (load_all oui_file None) = []) as Hrules by done.
  rewrite Hroles, port_lookup_none
    by (apply Forall_forall; intros q _; apply lookup_empty).
  cbn [fst snd]. unfold tls_wanted.
  change (DEFAULT_DEVICE_TYPE =? DEFAULT_DEVICE_TYPE) with true.
  rewrite orb_true_r, andb_true_r.
  destruct (bool_decide (443 ∈ open_ports host)); [|done].
  unfold _regex_fingerprint. rewrite Hrules. cbn [search_patterns].
  by destruct (PyStr.blank _).
Qed.

End Around.

(** ** [NmapScanner] *)

Local Open Scope Z_scope.

Lemma take_nonempty n s : PyStr.take (S n) s ≠ "" ↔ s ≠ "".
Proof. destruct s; unfold PyStr.take; simpl; split; done. Qed.

Section ScannerFacts.

Variable py_int : string → option Z.

(** What the loop over the OS matches returns: an accuracy that no entry
    exceeds, with the name it started from or the cut name of an entry that
    has this accuracy. *)
Lemma best_osmatch_result l b0 n0 b n :
  best_osmatch py_int l b0 n0 = Scanned (b, n) →
  b0 ≤ b ∧ (∀ entry, entry ∈ l → accuracy_val py_int entry ≤ b) ∧
  ((b = b0 ∧ n = n0) ∨
   ∃ entry full, entry ∈ l ∧ om_name entry = Some full ∧
                 n = Some (PyStr.take 25 full) ∧ accuracy_val py_int entry = b).
Proof.
  revert b0 n0. induction l as [|e l IH]; intros b0 n0; cbn [best_osmatch].
  - intros [= <- <-]. split; [lia|]. split; [by intros ? ?%elem_of_nil | by left].
  - destruct (accuracy_val py_int e >? b0) eqn:Hgt.
    + destruct (om_name e) as [full|] eqn:Hname; [|done].
      intros (Hle & Hall & Hfrom)%IH. apply Z.gtb_lt in Hgt.
      split; [lia|]. split.
      * intros entry [->|Hin]%elem_of_cons; [done | by apply Hall].
      * right. destruct Hfrom as [[-> ->]|(entry & full' & Hin & ? & ? & ?)].
        -- exists e, full. repeat split; [apply list_elem_of_here | done].
        -- exists entry, full'. repeat split; [by apply elem_of_cons; right | done..].
    + intros (Hle & Hall & Hfrom)%IH.
      assert (accuracy_val py_int e ≤ b0) as Hnot.
      { destruct (Z.gtb_spec (accuracy_val py_int e) b0); [done | lia]. }
      split; [done|]. split.
      * intros entry [->|Hin]%elem_of_cons; [lia | by apply Hall].
      * destruct Hfrom as [?|(entry & full' & Hin & ? & ? & ?)]; [by left|].
        right. exists entry, full'. repeat split; [by apply elem_of_cons; right | done..].
Qed.

(** Entries that do not beat the best accuracy are passed over. *)
Lemma best_osmatch_not_better l b0 n0 :
  (∀ entry, entry ∈ l → accuracy_val py_int entry ≤ b0) →
  best_osmatch py_int l b0 n0 = Scanned (b0, n0).
Proof.
  induction l as [|e l IH]; intros Hall; cbn [best_osmatch]; [done|].
  assert ((accuracy_val py_int e >? b0) = false) as ->.
  { pose proof (Hall e (list_elem_of_here _ _)).
    destruct (Z.gtb_spec (accuracy_val py_int e) b0); [lia | done]. }
  apply IH. intros entry Hin. apply Hall. by apply elem_of_cons; right.
Qed.

(** The loop does not raise when every entry has a name. *)
Lemma best_osmatch_named l b0 n0 :
  (∀ entry, entry ∈ l → is_Some (om_name entry)) →
  ∃ b n, best_osmatch py_int l b0 n0 = Scanned (b, n).
Proof.
  revert b0 n0. induction l as [|e l IH]; intros b0 n0 Hall; cbn [best_osmatch].
  - by eexists _, _.
  - assert (∀ entry, entry ∈ l → is_Some (om_name entry)) as Hrest
      by (intros entry Hin; apply Hall; by apply elem_of_cons; right).
    destruct (Hall e (list_elem_of_here _ _)) as [full ->].
    destruct (_ >? _); by apply IH.
Qed.

(** The loop over entries that are all worse than some accuracy [a]. *)
Lemma best_osmatch_below l b0 n0 a :
  b0 < a →
  (∀ entry, entry ∈ l → accuracy_val py_int entry < a ∧ is_Some (om_name entry)) →
  ∃ b n, best_osmatch py_int l b0 n0 = Scanned (b, n) ∧ b < a.
Proof.
  intros Hb0 Hall.
  destruct (best_osmatch_named l b0 n0) as (b & n & Heq).
  { intros entry Hin. by apply Hall. }
  exists b, n. split; [done|].
  destruct (best_osmatch_result _ _ _ _ _ Heq) as (_ & _ & [[-> _]|(e & ? & Hin & _ & _ & <-)]);
    [done | by apply Hall].
Qed.

Lemma best_osmatch_app l1 l2 b0 n0 :
  best_osmatch py_int (l1 ++ l2) b0 n0 =
  match best_osmatch py_int l1 b0 n0 with
  | Scanned (b, n) => best_osmatch py_int l2 b n
  | ScanTypeError => ScanTypeError
  end.
Proof.
  revert b0 n0. induction l1 as [|e l1 IH]; intros b0 n0; [done|].
  rewrite <- app_comm_cons. cbn [best_osmatch].
  destruct (_ >? _); [|apply IH]. destruct (om_name e); [apply IH | done].
Qed.

Lemma guess_os_shape enable osmatch name :
  guess_os py_int enable osmatch = Scanned (Some name) →
  enable = true ∧ name ≠ "" ∧ (String.length name ≤ 25)%nat ∧
  ∃ l entry full,
    osmatch = Some l ∧ entry ∈ l ∧ om_name entry = Some full ∧
    name = PyStr.take 25 full ∧ 85 ≤ accuracy_val py_int entry ∧
    ∀ other, other ∈ l → accuracy_val py_int other ≤ accuracy_val py_int entry.
Proof.
  unfold guess_os. destruct osmatch as [l|]; [|done].
  destruct enable; [|done].
  destruct (best_osmatch py_int l 0 None) as [[b n]|] eqn:Hbest; [|done].
  destruct n as [n|]; [|done].
  destruct (b >=? 85) eqn:Hb; [|done]. destruct (PyStr.nonempty n) eqn:Hn; [|done].
  intros [= ->]. apply nonempty_true in Hn. apply Z.geb_le in Hb.
  destruct (best_osmatch_result _ _ _ _ _ Hbest)
    as (_ & Hall & [[_ ?]|(entry & full & Hin & Hname & [= ->] & <-)]); [done|].
  repeat split; [done | apply length_take|].
  by exists l, entry, full.
Qed.

Lemma guess_os_nameless before entry after :
  (∀ e, e ∈ before →
        accuracy_val py_int e < accuracy_val py_int entry ∧ is_Some (om_name e)) →
  0 < accuracy_val py_int entry → om_name entry = None →
  guess_os py_int true (Some (before ++ entry :: after)) = ScanTypeError.
Proof.
  intros Hbefore Hacc Hname. unfold guess_os. rewrite best_osmatch_app.
  destruct (best_osmatch_below before 0 None (accuracy_val py_int entry))
    as (b & n & -> & Hb); [lia | done |].
  cbn [best_osmatch].
  assert ((accuracy_val py_int entry >? b) = true) as -> by (apply Z.gtb_lt; lia).
  by rewrite Hname.
Qed.

Lemma scan_subnet_raises enable hosts_before host found hosts_after :
  nh_state found = "up" → scan_host py_int enable host found = ScanTypeError →
  scan_subnet py_int enable (hosts_before ++ (host, found) :: hosts_after)
  = ScanTypeError.
Proof.
  intros Hup Hraise. induction hosts_before as [|[h f] hs IH].
  - cbn [app scan_subnet]. apply String.eqb_eq in Hup. by rewrite Hup, Hraise.
  - rewrite <- app_comm_cons. cbn [scan_subnet]. rewrite IH.
    destruct (nh_state f =? "up")%string; [|done].
    by destruct (scan_host py_int enable h f).
Qed.

(** Each result of a scan is the record of a host that is up. *)
Lemma scan_subnet_elem enable hosts results hd :
  scan_subnet py_int enable hosts = Scanned results → hd ∈ results →
  ∃ host found, (host, found) ∈ hosts ∧ nh_state found = "up" ∧
                scan_host py_int enable host found = Scanned hd.
Proof.
  revert results. induction hosts as [|[h f] hosts IH]; intros results; cbn [scan_subnet].
  - intros [= <-] []%elem_of_nil.
  - destruct (nh_state f =? "up")%string eqn:Hup.
    + destruct (scan_host py_int enable h f) as [r|] eqn:Hr; [|done].
      destruct (scan_subnet py_int enable hosts) as [rs|]; [|done].
      intros [= <-] [->|Hin]%elem_of_cons.
      * exists h, f. apply String.eqb_eq in Hup. split; [apply list_elem_of_here | done].
      * destruct (IH rs eq_refl Hin) as (host & found & ? & ? & ?).
        exists host, found. split; [by apply elem_of_cons; right | done].
    + intros Hs Hin. destruct (IH results Hs Hin) as (host & found & ? & ? & ?).
      exists host, found. split; [by apply elem_of_cons; right | done].
Qed.

Lemma gather_open_ports_elem tcp p :
  p ∈ gather_open_ports tcp → ∃ items, tcp = Some items ∧ (p, "open") ∈ items.
Proof.
  unfold gather_open_ports. destruct tcp as [items|]; [|by intros ?%elem_of_nil].
  intros ([q st] & -> & [Hopen Hin]%list_elem_of_filter)%list_elem_of_fmap.
  simpl in *. subst st. by exists items.
Qed.

End ScannerFacts.

Lemma length_append (a b : string) :
  String.length (a +:+ b) = (String.length a + String.length b)%nat.
Proof. induction a as [|c a IH]; [done|]. rewrite append_cons. simpl. by rewrite IH. Qed.

Lemma length_replace_char old new s :
  (String.length new ≤ 1)%nat →
  (String.length (PyText.replace_char old new s) ≤ String.length s)%nat.
Proof.
  intros Hnew. induction s as [|c s IH]; [done|]. cbn [PyText.replace_char].
  case_bool_decide; [rewrite length_append|]; simpl; lia.
Qed.

Lemma length_replace_char_same old new s :
  String.length new = 1%nat →
  String.length (PyText.replace_char old new s) = String.length s.
Proof.
  intros Hnew. induction s as [|c s IH]; [done|]. cbn [PyText.replace_char].
  case_bool_decide; [rewrite length_append|]; simpl; lia.
Qed.

Lemma length_platform_slug name :
  (String.length (platform_slug name) ≤ String.length name)%nat.
Proof.
  unfold platform_slug.
  etransitivity; [apply length_replace_char; simpl; lia|].
  etransitivity; [apply length_replace_char; simpl; lia|].
  etransitivity; [apply length_replace_char; simpl; lia|].
  unfold PyStr.lower. by rewrite length_map.
Qed.

Section ScannerProps.

Variable py_int : string → option Z.
Variable re_search : string → string → re_result.
Variable net : fetch_log → string → Z → raw_evidence.

(** X13. An OS guess, when the scanner gives one, is the name of an OS match
    cut to its first 25 characters; it is not empty, OS detection is on, and
    the match has an accuracy of at least 85 that no other match of the host
    exceeds. *)
Theorem X13_os_guess_shape enable osmatch name :
  guess_os py_int enable osmatch = Scanned (Some name) →
  enable = true ∧ name ≠ "" ∧ (String.length name ≤ 25)%nat ∧
  ∃ l entry full,
    osmatch = Some l ∧ entry ∈ l ∧ om_name entry = Some full ∧
    name = PyStr.take 25 full ∧ 85 ≤ accuracy_val py_int entry ∧
    ∀ other, other ∈ l → accuracy_val py_int other ≤ accuracy_val py_int entry.
Proof. apply guess_os_shape. Qed.

(** X14. Among the OS matches of the best accuracy the first one in the list
    gives the guess: a match of accuracy at least 85, with a name, that beats
    every match before it and is not beaten by any match after it. *)
Theorem X14_first_best_match_wins before entry after full :
  (∀ e, e ∈ before →
        accuracy_val py_int e < accuracy_val py_int entry ∧ is_Some (om_name e)) →
  (∀ e, e ∈ after → accuracy_val py_int e ≤ accuracy_val py_int entry) →
  85 ≤ accuracy_val py_int entry → om_name entry = Some full → full ≠ "" →
  guess_os py_int true (Some (before ++ entry :: after))
  = Scanned (Some (PyStr.take 25 full)).
Proof.
  intros Hbefore Hafter Hacc Hname Hfull. unfold guess_os.
  rewrite best_osmatch_app.
  destruct (best_osmatch_below py_int before 0 None (accuracy_val py_int entry))
    as (b & n & -> & Hb); [lia | done |].
  cbn [best_osmatch].
  assert ((accuracy_val py_int entry >? b) = true) as -> by (apply Z.gtb_lt; lia).
  rewrite Hname, best_osmatch_not_better by done.
  assert ((accuracy_val py_int entry >=? 85) = true) as -> by (apply Z.geb_le; lia).
  assert (PyStr.nonempty (PyStr.take 25 full) = true) as ->; [|done].
  apply nonempty_true. by apply take_nonempty.
Qed.

(** X15. An OS match without a name aborts the scan of the whole subnet with
    a [TypeError], whatever its accuracy is, as soon as that accuracy is
    positive and beats the matches before it: no result is returned for any
    host. *)
Theorem X15_nameless_match_aborts_scan
    hosts_before host found hosts_after before entry after :
  nh_state found = "up" →
  nh_osmatch found = Some (before ++ entry :: after) →
  (∀ e, e ∈ before →
        accuracy_val py_int e < accuracy_val py_int entry ∧ is_Some (om_name e)) →
  0 < accuracy_val py_int entry → om_name entry = None →
  scan_subnet py_int true (hosts_before ++ (host, found) :: hosts_after)
  = ScanTypeError.
Proof.
  intros Hup Hos Hbefore Hacc Hname. apply scan_subnet_raises; [done|].
  unfold scan_host. by rewrite Hos, guess_os_nameless.
Qed.

(** X16. When every OS match has a name and none reaches an accuracy of 85,
    the host gets no OS guess. *)
Theorem X16_low_accuracy_no_guess enable l :
  (∀ e, e ∈ l → is_Some (om_name e)) →
  (∀ e, e ∈ l → accuracy_val py_int e < 85) →
  guess_os py_int enable (Some l) = Scanned None.
Proof.
  intros Hnamed Hlow.
  destruct (guess_os py_int enable (Some l)) as [[name|]|] eqn:Hg; [| done |].
  - destruct (guess_os_shape _ _ _ _ Hg)
      as (_ & _ & _ & l' & entry & full & [= <-] & Hin & _ & _ & Hacc & _).
    specialize (Hlow entry Hin). lia.
  - unfold guess_os in Hg. destruct enable; [|done].
    destruct (best_osmatch_named py_int l 0 None Hnamed) as (b & n & Hb).
    rewrite Hb in Hg. destruct n; [|done]. by destruct (_ && _).
Qed.

(** X17. From the scan to the fetch: the engine fetches evidence for a host
    record of the scan only if the record was made of a host that nmap
    reported up with port 443 in state "open". *)
Theorem X17_fetch_only_if_nmap_saw_443 enable hosts results hd self lg :
  scan_subnet py_int enable hosts = Scanned results → hd ∈ results →
  (fingerprint_host re_search net self hd lg).1 ≠ lg →
  ∃ host found items,
    (host, found) ∈ hosts ∧ nh_state found = "up" ∧
    scan_host py_int enable host found = Scanned hd ∧
    nh_tcp found = Some items ∧ (443, "open") ∈ items.
Proof.
  intros Hscan Hin Hfetch.
  destruct (scan_subnet_elem _ _ _ _ _ Hscan Hin) as (host & found & Hh & Hup & Hhost).
  exists host, found.
  rewrite fingerprint_host_run in Hfetch. cbv zeta in Hfetch.
  destruct (tls_wanted _ _ _) eqn:Hw; [|done].
  apply andb_true_iff in Hw as [H443%bool_decide_eq_true _].
  pose proof Hhost as Hmade.
  unfold scan_host in Hhost. destruct (guess_os _ _ _) as [os|]; [|done].
  injection Hhost as <-. cbn [open_ports] in H443.
  destruct (gather_open_ports_elem _ _ H443) as (items & ? & ?). by exists items.
Qed.

(** X18. The platform name that [main] makes of a scanned host is never
    empty and has at most 25 characters, and so has its platform slug when
    the name is ASCII text. *)
Theorem X18_platform_name_bounded enable host found hd :
  scan_host py_int enable host found = Scanned hd →
  platform_name hd ≠ "" ∧ (String.length (platform_name hd) ≤ 25)%nat ∧
  (is_ascii_text (platform_name hd) = true →
   (String.length (platform_slug (platform_name hd)) ≤ 25)%nat).
Proof.
  unfold scan_host. destruct (guess_os _ _ _) as [os|] eqn:Hg; [|done].
  intros [= <-]. unfold platform_name. cbn [os_guess].
  assert (PyText.or_else os "Unknown" ≠ "" ∧
          (String.length (PyText.or_else os "Unknown") ≤ 25)%nat) as [Hne Hlen].
  { destruct os as [name|]; [|split; [done | simpl; lia]].
    destruct (guess_os_shape _ _ _ _ Hg) as (_ & Hne & Hlen & _).
    unfold PyText.or_else. rewrite (proj2 (nonempty_true name) Hne). done. }
  repeat split; [done | done |]. intros _.
  etransitivity; [apply length_platform_slug | done].
Qed.

End ScannerProps.

(** ** [main] and [NetBoxManager] *)

Lemma split_on_join sep names :
  names ≠ [] → (∀ n, n ∈ names → ¬ PyText.has_char sep n) →
  PyText.split_on sep (PyText.join sep names) = names.
Proof.
  induction names as [|n [|n' rest] IH]; intros Hne Hfree; [done| |].
  - apply split_on_free, Hfree, list_elem_of_here.
  - rewrite join_cons, split_on_app by (apply Hfree, list_elem_of_here).
    rewrite IH; [done | done |]. intros x Hx. apply Hfree. by apply elem_of_cons; right.
Qed.

Lemma replace_char_chars old new s c :
  PyText.has_char c (PyText.replace_char old new s) →
  (PyText.has_char c s ∧ c ≠ old) ∨ PyText.has_char c new.
Proof.
  induction s as [|c' s IH]; cbn [PyText.replace_char]; [by intros ?%has_char_empty|].
  case_bool_decide as Hc.
  - rewrite has_char_app. intros [?|[[? ?]|?]%IH]; [by right | left | by right].
    split; [apply has_char_cons; by right | done].
  - rewrite has_char_cons. intros [->|[[? ?]|?]%IH]; [left | left | by right].
    + split; [apply has_char_cons; by left | done].
    + split; [apply has_char_cons; by right | done].
Qed.

Lemma lower_chars s c :
  PyText.has_char c (PyStr.lower s) → ∃ c0, PyText.has_char c0 s ∧ c = PyStr.lower_ascii c0.
Proof.
  induction s as [|c' s IH]; [by intros ?%has_char_empty|].
  change (PyStr.lower (String c' s)) with (String (PyStr.lower_ascii c') (PyStr.lower s)).
  rewrite has_char_cons. intros [->|(c0 & ? & ->)%IH].
  - exists c'. split; [apply has_char_cons; by left | done].
  - exists c0. split; [apply has_char_cons; by right | done].
Qed.

Lemma lower_ascii_not_upper c : PyText.is_upper (PyStr.lower_ascii c) = false.
Proof. destruct c as [[] [] [] [] [] [] [] []]; reflexivity. Qed.

Lemma lower_ascii_plain c :
  plain_name_char c = true →
  slug_char (PyStr.lower_ascii c) = true ∨ PyStr.lower_ascii c = " "%char ∨
  PyStr.lower_ascii c = "."%char ∨ PyStr.lower_ascii c = "("%char.
Proof.
  destruct c as [[] [] [] [] [] [] [] []]; vm_compute; intros H;
    first [discriminate H | by left | by right; left | by right; right; left
          | by right; right; right].
Qed.

Lemma append_cancel (a x y : string) : a +:+ x = a +:+ y → x = y.
Proof.
  induction a as [|c a IH]; [done|]. rewrite !append_cons. intros [= ?]. by apply IH.
Qed.

(** The characters of a platform slug. *)
Lemma platform_slug_chars name c :
  PyText.has_char c (platform_slug name) →
  c ≠ "("%char ∧ c ≠ "."%char ∧ c ≠ " "%char ∧
  (c = "-"%char ∨ ∃ c0, PyText.has_char c0 name ∧ c = PyStr.lower_ascii c0).
Proof.
  unfold platform_slug.
  intros [[H1 Hbr]|[]%has_char_empty]%replace_char_chars.
  apply replace_char_chars in H1 as [[H2 Hdot]|[]%has_char_empty].
  apply replace_char_chars in H2 as [[H3 Hsp]|Hdash].
  - repeat split; [done..|]. right. by apply lower_chars.
  - apply has_char_cons in Hdash as [->|[]%has_char_empty].
    repeat split; [done..|]. by left.
Qed.

(** X19. Every subnet that [main] makes of [SUBNETS] is a non-empty text
    without a comma and without whitespace at either end. *)
Theorem X19_cidr_list_clean subnets x :
  x ∈ cidr_list subnets →
  x ≠ "" ∧ ¬ PyText.has_char ","%char x ∧ PyText.strip x = x.
Proof.
  unfold cidr_list.
  intros (y & -> & [Hne Hin]%list_elem_of_filter)%list_elem_of_fmap.
  split; [by apply nonempty_true|]. split; [|apply strip_idemp].
  intros ?%strip_chars. by apply (split_on_no_sep _ _ _ Hin).
Qed.

(** X20. Names that are not empty, hold no comma and have no whitespace at
    either end come back from [SUBNETS] as they were joined with commas, in
    the same order. *)
Theorem X20_cidr_list_of_joined names :
  (∀ n, n ∈ names → n ≠ "" ∧ ¬ PyText.has_char ","%char n ∧ PyText.strip n = n) →
  cidr_list (PyText.join ","%char names) = names.
Proof.
  intros Hclean. unfold cidr_list.
  destruct names as [|n names]; [done|].
  rewrite split_on_join; [|done|intros x Hx; by apply Hclean].
  induction (n :: names) as [|x l IH]; [done|].
  destruct (Hclean x (list_elem_of_here _ _)) as (Hne & _ & Hstrip).
  rewrite filter_cons_True by (rewrite Hstrip; by apply nonempty_true).
  rewrite fmap_cons, Hstrip. f_equal. apply IH.
  intros y Hy. apply Hclean. by apply elem_of_cons; right.
Qed.

(** X21. A platform slug holds no space, no dot, no opening bracket and no
    upper-case letter, whatever the platform name is. *)
Theorem X21_platform_slug_strips name c :
  PyText.has_char c (platform_slug name) →
  c ≠ " "%char ∧ c ≠ "."%char ∧ c ≠ "("%char ∧ PyText.is_upper c = false.
Proof.
  intros (? & ? & ? & [->|(c0 & _ & ->)])%platform_slug_chars;
    repeat split; try done. apply lower_ascii_not_upper.
Qed.

(** X22. The platform slug of a plain name, one made of letters, digits,
    hyphens, underscores, spaces, dots and opening brackets, is made of
    lower-case letters, digits, hyphens and underscores. *)
Theorem X22_platform_slug_of_plain_name name :
  (∀ c, PyText.has_char c name → plain_name_char c = true) →
  ∀ c, PyText.has_char c (platform_slug name) → slug_char c = true.
Proof.
  intros Hplain c (Hbr & Hdot & Hsp & [->|(c0 & Hin & ->)])%platform_slug_chars; [done|].
  destruct (lower_ascii_plain c0 (Hplain c0 Hin)) as [?|[?|[?|?]]]; done.
Qed.

(** X23. The slug of a tenant, a manufacturer or a device type whose name
    is ASCII text is as long as the name and holds no space and no
    upper-case letter. *)
Theorem X23_name_slug_shape name :
  is_ascii_text name = true →
  String.length (name_slug name) = String.length name ∧
  ∀ c, PyText.has_char c (name_slug name) → c ≠ " "%char ∧ PyText.is_upper c = false.
Proof.
  intros _. unfold name_slug. split.
  - rewrite length_replace_char_same by done. apply length_map.
  - intros c [[(c0 & _ & ->)%lower_chars Hsp]|Hdash]%replace_char_chars.
    + split; [done | apply lower_ascii_not_upper].
    + by apply has_char_cons in Hdash as [->|[]%has_char_empty].
Qed.

(** X24. Two services with protocols equal up to letter case have the same
    name exactly when they have the same port. *)
Theorem X24_svc_name_tells_ports protocol protocol' port port' :
  PyStr.upper protocol = PyStr.upper protocol' →
  svc_name protocol port = svc_name protocol' port' ↔ port = port'.
Proof.
  intros Hproto. unfold svc_name. rewrite Hproto. split; [|by intros ->].
  intros Heq%append_cancel%(append_cancel "/"). by apply (inj pretty) in Heq.
Qed.

(** ** Instances of the further properties *)

Import Samples.

(** A decidable statement that is false, by evaluation. *)
Ltac decide_not :=
  unfold PyText.has_char;
  lazymatch goal with
  | |- ¬ ?P => exact (bool_decide_eq_false_1 P eq_refl)
  | |- ?x ∉ ?l => exact (bool_decide_eq_false_1 (x ∈ l) eq_refl)
  end.

Example oui_file_loaded :
  load_oui (Some [comment_line; old_line; acme_line; cisco_line]) ∅
  = {[ "AC:DE:48" := "Acme Corp"; "00:00:0C" := "Cisco Systems, Inc" ]}.
Proof. vm_compute. reflexivity. Qed.

Example web_host_scanned :
  scan_subnet PyText.int_ascii true [("10.0.0.8", web_host)] = Scanned [web_host_data].
Proof. vm_compute. reflexivity. Qed.

Example subnets_parsed :
  cidr_list " 10.0.0.0/24, 10.0.1.0/24 ,," = ["10.0.0.0/24"; "10.0.1.0/24"].
Proof. vm_compute. reflexivity. Qed.

Example platform_slug_keeps_closing_bracket :
  platform_slug "Cisco IOS (XE) 16.9" = "cisco-ios-xe)-169".
Proof. vm_compute. reflexivity. Qed.

Lemma X1_plain_host_instance :
  fingerprint_host Plain.re_search mikrotik_net mikrotik_engine plain_host []
  = ([], Ret (Classification "Unknown" "unknown" "Unknown")).
Proof.
  apply (X1_nothing_known_all_default Plain.re_search mikrotik_net mikrotik_engine
           plain_host []).
  - intros m _. reflexivity.
  - repeat constructor.
  - decide_not.
Defined.

Lemma X2_broken_rule_instance :
  (fingerprint_host Plain.re_search Plain.silent broken_engine https_host []).2
  = Ret (Classification "Unknown" "unknown" "Unknown").
Proof.
  apply (X2_failed_fetch_keeps_fields Plain.re_search Plain.silent broken_engine
           https_host []).
  reflexivity.
Defined.

Lemma X3_lower_key_instance :
  fingerprint_host Plain.re_search Plain.silent
    (Engine (delete "ac:de:48" (oui_dict lower_key_engine))
       (port_roles lower_key_engine) (fingerprint_patterns lower_key_engine))
    acme_host []
  = fingerprint_host Plain.re_search Plain.silent lower_key_engine acme_host [].
Proof.
  apply (X3_oui_key_never_found Plain.re_search Plain.silent lower_key_engine
           acme_host [] "ac:de:48").
  - intros m [= <-]. vm_compute. reflexivity.
  - left. intros H. vm_compute in H. discriminate H.
Defined.

Lemma X4_swapped_ports_instance :
  fingerprint_host Plain.re_search Plain.silent acme_engine
    (HostData "10.0.0.7" None [22; 80] None) []
  = fingerprint_host Plain.re_search Plain.silent acme_engine
      (HostData "10.0.0.7" None [80; 22] None) [].
Proof.
  apply (X4_port_order_irrelevant Plain.re_search Plain.silent acme_engine
           "10.0.0.7" None [80; 22] [22; 80] None []).
  - apply perm_swap.
  - intros p q e1 e2 _ _ H1 H2. unfold acme_engine in H1, H2. cbn [port_roles] in H1, H2.
    apply lookup_singleton_Some in H1 as [_ <-].
    by apply lookup_singleton_Some in H2 as [_ <-].
Defined.

Lemma X5_mikrotik_instance :
  (vendor (Classification "MikroTik" "unknown" "RouterOS") = "Unknown" ∨
   (∃ k, oui_dict mikrotik_engine !! k
         = Some (vendor (Classification "MikroTik" "unknown" "RouterOS"))) ∨
   (∃ entry p d, entry ∈ fingerprint_patterns mikrotik_engine ∧
                 complete_rule entry p
                   (vendor (Classification "MikroTik" "unknown" "RouterOS")) d)) ∧
  (role_slug (Classification "MikroTik" "unknown" "RouterOS") = "unknown" ∨
   ∃ q entry, q ∈ open_ports https_host ∧
              port_roles mikrotik_engine !! pretty q = Some entry ∧
              entry !! "role"
              = Some (role_slug (Classification "MikroTik" "unknown" "RouterOS"))) ∧
  (device_type (Classification "MikroTik" "unknown" "RouterOS") = "Unknown" ∨
   (∃ q entry, q ∈ open_ports https_host ∧
               port_roles mikrotik_engine !! pretty q = Some entry ∧
               entry !! "device_type"
               = Some (device_type (Classification "MikroTik" "unknown" "RouterOS"))) ∨
   (∃ entry p v, entry ∈ fingerprint_patterns mikrotik_engine ∧
                 complete_rule entry p v
                   (device_type (Classification "MikroTik" "unknown" "RouterOS")))).
Proof.
  apply (X5_values_come_from_tables Plain.re_search mikrotik_net mikrotik_engine
           https_host [] [("10.0.0.8", 443)]).
  vm_compute. reflexivity.
Defined.

Lemma X7_comment_instance :
  load_oui (Some ([old_line] ++ comment_line :: [acme_line])) ∅
  = load_oui (Some ([old_line] ++ [acme_line])) ∅.
Proof.
  apply (X7_oui_line_ignored [old_line] comment_line [acme_line] ∅).
  right. left. vm_compute. reflexivity.
Defined.

Lemma X8_cisco_entry_instance : oui_entry_ok "00:00:0C" "Cisco Systems, Inc".
Proof.
  apply (X8_oui_entries_well_formed [acme_line; cisco_line]).
  vm_compute. reflexivity.
Defined.

Lemma X9_acme_line_instance :
  load_oui (Some ([old_line] ++ [acme_line])) ∅ !! "AC:DE:48"
  = Some (PyText.strip acme_vendor_field).
Proof.
  apply (X9_oui_last_line_wins [old_line] "A" "C:DE:48" acme_vendor_field ∅).
  - reflexivity.
  - discriminate.
  - decide_not.
  - decide_not.
  - reflexivity.
Defined.

Lemma X10_cisco_line_instance :
  load_oui (Some ([acme_line] ++ [cisco_line])) ∅ !! "00:00:0C"
  = Some (PyText.strip "Cisco Systems, Inc").
Proof.
  apply (X10_oui_third_field_is_vendor [acme_line] "0" "0:00:0C" "Cisco"
           "Cisco Systems, Inc" ∅).
  - reflexivity.
  - discriminate.
  - decide_not.
  - decide_not.
  - decide_not.
  - reflexivity.
Defined.

Lemma X11_acme_file_instance :
  Untyped.c_vendor
    (Untyped.Classified (YStr "Acme Corp") (YStr "server") (YStr "Linux Host"))
  = YStr (PyText.strip acme_vendor_field).
Proof.
  apply (X11_oui_file_line_names_vendor Plain.re_search Plain.silent [old_line]
           "A" "C:DE:48" acme_vendor_field (Some ssh_file)
           (Untyped.Tables (load_oui (Some ([old_line] ++ [acme_line])) ∅)
              (YMap [(YStr "22", YMap [(YStr "role", YStr "server");
                                       (YStr "device_type", YStr "Linux Host")])])
              (YSeq []))
           acme_host "ac:de:48:00:11:22" [] []).
  - reflexivity.
  - discriminate.
  - decide_not.
  - decide_not.
  - reflexivity.
  - vm_compute. reflexivity.
  - intros H. vm_compute in H. discriminate H.
  - reflexivity.
  - discriminate.
  - vm_compute. reflexivity.
  - vm_compute. reflexivity.
  - vm_compute. reflexivity.
  - vm_compute. reflexivity.
Defined.

Lemma X13_long_match_instance :
  true = true ∧ "Linux 4.15 - 5.8 (embedde" ≠ "" ∧
  (String.length "Linux 4.15 - 5.8 (embedde" ≤ 25)%nat ∧
  ∃ l entry full,
    Some [linux_match; long_match] = Some l ∧ entry ∈ l ∧ om_name entry = Some full ∧
    "Linux 4.15 - 5.8 (embedde" = PyStr.take 25 full ∧
    85 ≤ accuracy_val PyText.int_ascii entry ∧
    ∀ other, other ∈ l →
      accuracy_val PyText.int_ascii other ≤ accuracy_val PyText.int_ascii entry.
Proof.
  apply (X13_os_guess_shape PyText.int_ascii true (Some [linux_match; long_match])
           "Linux 4.15 - 5.8 (embedde").
  vm_compute. reflexivity.
Defined.

Lemma X14_freebsd_instance :
  guess_os PyText.int_ascii true (Some ([linux_match] ++ freebsd_match :: [openbsd_match]))
  = Scanned (Some (PyStr.take 25 "FreeBSD 13.0-RELEASE")).
Proof.
  apply (X14_first_best_match_wins PyText.int_ascii [linux_match] freebsd_match
           [openbsd_match] "FreeBSD 13.0-RELEASE").
  - intros e ->%list_elem_of_singleton. split; [reflexivity | by eexists].
  - intros e ->%list_elem_of_singleton. vm_compute. discriminate.
  - vm_compute. discriminate.
  - reflexivity.
  - discriminate.
Defined.

Lemma X15_nameless_host_instance :
  scan_subnet PyText.int_ascii true
    ([("10.0.0.8", web_host)] ++ ("10.0.0.9", nameless_host) :: [])
  = ScanTypeError.
Proof.
  apply (X15_nameless_match_aborts_scan PyText.int_ascii [("10.0.0.8", web_host)]
           "10.0.0.9" nameless_host [] [] nameless_match []).
  - reflexivity.
  - reflexivity.
  - intros e []%elem_of_nil.
  - reflexivity.
  - reflexivity.
Defined.

Lemma X16_weak_match_instance :
  guess_os PyText.int_ascii true (Some [weak_match]) = Scanned None.
Proof.
  apply (X16_low_accuracy_no_guess PyText.int_ascii true [weak_match]).
  - intros e ->%list_elem_of_singleton. by eexists.
  - intros e ->%list_elem_of_singleton. reflexivity.
Defined.

Lemma X17_web_host_instance :
  ∃ host found items,
    (host, found) ∈ [("10.0.0.8", web_host)] ∧ nh_state found = "up" ∧
    scan_host PyText.int_ascii true host found = Scanned web_host_data ∧
    nh_tcp found = Some items ∧ (443, "open") ∈ items.
Proof.
  apply (X17_fetch_only_if_nmap_saw_443 PyText.int_ascii Plain.re_search mikrotik_net
           true [("10.0.0.8", web_host)] [web_host_data] web_host_data
           mikrotik_engine []).
  - vm_compute. reflexivity.
  - apply list_elem_of_here.
  - vm_compute. discriminate.
Defined.

Lemma X18_web_host_instance :
  platform_name web_host_data ≠ "" ∧
  (String.length (platform_name web_host_data) ≤ 25)%nat ∧
  (is_ascii_text (platform_name web_host_data) = true →
   (String.length (platform_slug (platform_name web_host_data)) ≤ 25)%nat).
Proof.
  apply (X18_platform_name_bounded PyText.int_ascii true "10.0.0.8" web_host).
  vm_compute. reflexivity.
Defined.

Lemma X19_second_subnet_instance :
  "10.0.1.0/24" ≠ "" ∧ ¬ PyText.has_char ","%char "10.0.1.0/24" ∧
  PyText.strip "10.0.1.0/24" = "10.0.1.0/24".
Proof.
  apply (X19_cidr_list_clean " 10.0.0.0/24, 10.0.1.0/24 ,,").
  vm_compute. apply elem_of_cons. right. apply list_elem_of_here.
Defined.

Lemma X20_two_subnets_instance :
  cidr_list (PyText.join ","%char ["10.0.0.0/24"; "192.168.1.0/24"])
  = ["10.0.0.0/24"; "192.168.1.0/24"].
Proof.
  apply (X20_cidr_list_of_joined ["10.0.0.0/24"; "192.168.1.0/24"]).
  intros n [->|[->|[]%elem_of_nil]%elem_of_cons]%elem_of_cons;
    (split; [discriminate | split; [decide_not | reflexivity]]).
Defined.

Lemma X21_cisco_slug_instance :
  ")"%char ≠ " "%char ∧ ")"%char ≠ "."%char ∧ ")"%char ≠ "("%char ∧
  PyText.is_upper ")" = false.
Proof.
  apply (X21_platform_slug_strips "Cisco IOS (XE) 16.9" ")").
  vm_compute. do 12 (apply elem_of_cons; right). apply list_elem_of_here.
Defined.

Lemma X22_linux_slug_instance : slug_char "5" = true.
Proof.
  apply (X22_platform_slug_of_plain_name "Linux 5.4").
  - intros c H. unfold PyText.has_char in H. cbn in H.
    repeat (apply elem_of_cons in H as [->|H]; [reflexivity|]).
    by apply elem_of_nil in H.
  - vm_compute. do 6 (apply elem_of_cons; right). apply list_elem_of_here.
Defined.

Lemma X23_acme_slug_instance :
  String.length (name_slug "Acme Corp") = String.length "Acme Corp" ∧
  ∀ c, PyText.has_char c (name_slug "Acme Corp") →
       c ≠ " "%char ∧ PyText.is_upper c = false.
Proof.
  apply (X23_name_slug_shape "Acme Corp").
  vm_compute. reflexivity.
Defined.

Lemma X24_tcp_case_instance : svc_name "tcp" 443 = svc_name "TCP" 443 ↔ 443 = 443.
Proof.
  apply (X24_svc_name_tells_ports "tcp" "TCP" 443 443).
  vm_compute. reflexivity.
Defined.
